(** * travel_assistant.py: a shallow embedding and its checked properties

    The program is a command-line travel advisor.  Module start-up reads three
    credentials from the environment, two tool functions wrap a places API and
    a weather API, two guardrail functions wrap classifier agents, and the
    main block reads a city, builds a prompt and runs the agent.

    Everything the program does not implement itself is a parameter here:
    - [PyLib]: text and coercions produced by the interpreter and by
      pydantic (repr of a value, the message of a built-in exception, the lax
      float and int validators);
    - [World]: what the network and the agent runtime answer.

    Python [str] values are held as their UTF-8 encoding in [string]; parsed
    JSON objects are insertion-ordered association lists; Python floats are
    binary64 ([PrimFloat.float]). *)

From Stdlib Require Import ZArith NArith String Ascii List Bool PrimFloat Lia.
From stdpp Require Import base option list strings gmap pretty.

Set Warnings "-register-all".
Open Scope string_scope.
Open Scope list_scope.

(** ** Python values *)

(** A parsed JSON document, as [response.json()] and the googlemaps client
    hand it to the program. *)
Inductive json : Type :=
| JNull
| JBool (b : bool)
| JInt (n : Z)
| JFloat (f : float)
| JStr (s : string)
| JArr (l : list json)
| JObj (kvs : list (string * json)).

(** Key lookup in an insertion-ordered dict. *)
Fixpoint assoc (k : string) (kvs : list (string * json)) : option json :=
  match kvs with
  | [] => None
  | (k', v) :: rest => if String.eqb k k' then Some v else assoc k rest
  end.

(** ** Exceptions

    Only classes derived from [Exception] are modelled: every one of them is
    caught by [except Exception]. *)
Inductive exn_class : Type :=
| KeyError
| IndexError
| ValueError
| ValidationError        (* pydantic; derives from ValueError *)
| TypeError
| AttributeError
| RuntimeError
| EOFError
| RequestException      (* requests.exceptions *)
| HTTPError             (* requests; derives from RequestException *)
| JSONDecodeError       (* requests; derives from RequestException and ValueError *)
| ApiError              (* googlemaps.exceptions *)
| InputGuardrailTripwireTriggered
| OutputGuardrailTripwireTriggered
| OtherException.       (* any other class that derives from Exception only *)

Record exn : Type := Exn { exn_cls : exn_class; exn_str : string }.

Definition exn_class_eqb (a b : exn_class) : bool :=
  match a, b with
  | KeyError, KeyError | IndexError, IndexError | ValueError, ValueError
  | ValidationError, ValidationError | TypeError, TypeError
  | AttributeError, AttributeError | RuntimeError, RuntimeError
  | EOFError, EOFError | RequestException, RequestException
  | HTTPError, HTTPError | JSONDecodeError, JSONDecodeError
  | ApiError, ApiError
  | InputGuardrailTripwireTriggered, InputGuardrailTripwireTriggered
  | OutputGuardrailTripwireTriggered, OutputGuardrailTripwireTriggered
  | OtherException, OtherException => true
  | _, _ => false
  end.

(** [issubclass c base]. *)
Definition issubclass (c base : exn_class) : bool :=
  exn_class_eqb c base ||
  match c, base with
  | ValidationError, ValueError => true
  | HTTPError, RequestException => true
  | JSONDecodeError, RequestException => true
  | JSONDecodeError, ValueError => true
  | _, _ => false
  end.

(** [isinstance(e, (c1, c2, ...))]. *)
Definition isinstance (e : exn) (bases : list exn_class) : bool :=
  existsb (issubclass (exn_cls e)) bases.

(** ** Effects

    What the program does besides computing: log records written through
    [logger], lines printed, the prompt shown by [input], and calls that
    leave the process.  Records that the libraries themselves send to the
    root logger are not part of the model. *)
Inductive level : Type := INFO | ERROR.

Inductive event : Type :=
| Log (lvl : level) (msg : string)       (* logger.info / logger.error *)
| LogException (msg : string) (e : exn)  (* logger.exception: ERROR record plus the stack trace of e *)
| Stdout (line : string)                 (* print *)
| Prompt (text : string)                 (* input(text) *)
| SetTracingKey (key : option string)    (* set_tracing_export_api_key *)
| HttpGet (url : string)                 (* requests.get *)
| PlacesClient (key : string)            (* googlemaps.Client *)
| PlacesQuery (query : string)           (* gmaps.places *)
| AgentRun (agent : string) (input : string). (* Runner.run / Runner.run_sync *)

(** Calls that reach the network. *)
Definition is_network (ev : event) : bool :=
  match ev with
  | HttpGet _ | PlacesQuery _ | AgentRun _ _ => true
  | _ => false
  end.

Definition is_agent_run (ev : event) : bool :=
  match ev with
  | AgentRun _ _ => true
  | _ => false
  end.

(** How a computation ends: with a value, with an exception, or with
    [SystemExit] (which [except Exception] does not catch). *)
Inductive outcome (A : Type) : Type :=
| Ret (a : A)
| Raise (e : exn)
| Exit (code : Z).
Arguments Ret {A} a.
Arguments Raise {A} e.
Arguments Exit {A} code.

(** A computation: the events it emitted, in order, and how it ended. *)
Definition M (A : Type) : Type := (list event * outcome A)%type.

Definition ret {A} (a : A) : M A := ([], Ret a).
Definition raise {A} (e : exn) : M A := ([], Raise e).
Definition exit {A} (code : Z) : M A := ([], Exit code).
Definition emit (ev : event) : M unit := ([ev], Ret tt).

Definition bind {A B} (m : M A) (k : A -> M B) : M B :=
  match m with
  | (t, Ret a) => let '(t', r) := k a in (t ++ t', r)
  | (t, Raise e) => (t, Raise e)
  | (t, Exit c) => (t, Exit c)
  end.

(** [try: m  except ...: handler]; the handler re-raises what it does not match. *)
Definition try_except {A} (m : M A) (handler : exn -> M A) : M A :=
  match m with
  | (t, Raise e) => let '(t', r) := handler e in (t ++ t', r)
  | other => other
  end.

Declare Scope py_scope.
Delimit Scope py_scope with py.
Notation "x <- m ;; k" := (bind m (fun x => k))
  (at level 100, m at next level, right associativity) : py_scope.
Notation "m ;; k" := (bind m (fun _ => k))
  (at level 100, right associativity) : py_scope.
Open Scope py_scope.

Definition trace {A} (m : M A) : list event := fst m.
Definition result {A} (m : M A) : outcome A := snd m.

(** ** Pure steps

    An expression that touches nothing outside: it has a value or raises. *)
Inductive res (A : Type) : Type :=
| Ok (a : A)
| Err (e : exn).
Arguments Ok {A} a.
Arguments Err {A} e.

Definition rbind {A B} (r : res A) (k : A -> res B) : res B :=
  match r with
  | Ok a => k a
  | Err e => Err e
  end.

Definition lift {A} (r : res A) : M A :=
  match r with
  | Ok a => ret a
  | Err e => raise e
  end.

(** ** Strings: code points and [str.strip] *)

(** Number of bytes of the UTF-8 sequence that starts with [a]. *)
Definition utf8_len (a : ascii) : nat :=
  let n := N_of_ascii a in
  if (n <? 128)%N then 1
  else if (n <? 224)%N then 2
  else if (n <? 240)%N then 3
  else 4.

Definition flush (cur : string) : list string :=
  match cur with
  | EmptyString => []
  | _ => [cur]
  end.

(** Split a UTF-8 string into its code points, each kept as its bytes. *)
Fixpoint utf8_split (s : string) (pending : nat) (cur : string) : list string :=
  match s with
  | EmptyString => flush cur
  | String a t =>
      match pending with
      | O => flush cur ++ utf8_split t (utf8_len a - 1) (String a EmptyString)
      | S p => utf8_split t p (cur ++ String a EmptyString)
      end
  end.

Definition utf8_chars (s : string) : list string := utf8_split s 0 EmptyString.

Definition byte_at (c : string) (i : nat) : N :=
  match String.get i c with
  | Some a => N_of_ascii a
  | None => 0%N
  end.

(** The code point a UTF-8 sequence encodes. *)
Definition codepoint (c : string) : N :=
  let b0 := byte_at c 0 in
  let b1 := N.land (byte_at c 1) 63 in
  let b2 := N.land (byte_at c 2) 63 in
  let b3 := N.land (byte_at c 3) 63 in
  match String.length c with
  | 1 => b0
  | 2 => (N.land b0 31 * 64 + b1)%N
  | 3 => ((N.land b0 15 * 64 + b1) * 64 + b2)%N
  | _ => (((N.land b0 7 * 64 + b1) * 64 + b2) * 64 + b3)%N
  end.

(** CPython's [Py_UNICODE_ISSPACE]: the characters [str.strip()] removes. *)
Definition Py_UNICODE_ISSPACE (cp : N) : bool :=
  ((9 <=? cp) && (cp <=? 13) || (28 <=? cp) && (cp <=? 32)
   || (cp =? 0x85) || (cp =? 0xA0) || (cp =? 0x1680)
   || (0x2000 <=? cp) && (cp <=? 0x200A)
   || (cp =? 0x2028) || (cp =? 0x2029) || (cp =? 0x202F)
   || (cp =? 0x205F) || (cp =? 0x3000))%N.

Definition isspace (c : string) : bool := Py_UNICODE_ISSPACE (codepoint c).

Fixpoint drop_while {A} (p : A -> bool) (l : list A) : list A :=
  match l with
  | [] => []
  | x :: rest => if p x then drop_while p rest else l
  end.

Definition join (cs : list string) : string := fold_right String.app EmptyString cs.

(** [s.strip()]. *)
Definition strip (s : string) : string :=
  join (rev (drop_while isspace (rev (drop_while isspace (utf8_chars s))))).

(** A string made of whitespace only (the empty string included). *)
Definition whitespace_only (s : string) : Prop :=
  forallb isspace (utf8_chars s) = true.

(** ** What the interpreter and the libraries contribute

    Text and coercions the program obtains from CPython and pydantic and
    never computes itself.  The properties below hold for every instance. *)
Class PyLib : Type := {
  (** [repr(v)]; for every JSON value but a [str] this is also [str(v)]. *)
  py_repr : json -> string;
  (** message of a built-in exception raised on the operand [v] *)
  builtin_msg : exn_class -> json -> string;
  (** [str(e)] of the pydantic ValidationError for a model and its arguments *)
  validation_msg : string -> list (string * json) -> string;
  (** [traceback.format_exc()] while [e] is being handled *)
  format_exc : exn -> string;
  (** slices are hashable (Python 3.12 and later): subscripting a dict with
      a slice then raises KeyError, before that TypeError *)
  slice_hashable : bool;
  (** pydantic's lax validators for a [float] and an [int] field *)
  lax_float : json -> option float;
  lax_int : json -> option Z;
  lax_float_JFloat : forall f, lax_float (JFloat f) = Some f;
  lax_int_JInt : forall n, lax_int (JInt n) = Some n
}.

Section Python.
Context `{PyLib}.

(** [str(v)], as an f-string field formats it. *)
Definition py_str (v : json) : string :=
  match v with
  | JStr s => s
  | _ => py_repr v
  end.

(** f-string field holding an [Optional[str]] module constant. *)
Definition fstr_opt (o : option string) : string :=
  match o with
  | Some s => s
  | None => "None"
  end.

(** Truth value of an [Optional[str]]: [None] and [""] are false. *)
Definition truthy (o : option string) : bool :=
  match o with
  | Some s => negb (String.eqb s "")
  | None => false
  end.

(** [v.get(k, d)]: only a dict has the method. *)
Definition py_get (v : json) (k : string) (d : json) : res json :=
  match v with
  | JObj kvs => Ok (default d (assoc k kvs))
  | _ => Err (Exn AttributeError (builtin_msg AttributeError v))
  end.

(** [v[k]] for a string key. *)
Definition py_getitem (v : json) (k : string) : res json :=
  match v with
  | JObj kvs =>
      match assoc k kvs with
      | Some x => Ok x
      | None => Err (Exn KeyError (py_repr (JStr k)))
      end
  | _ => Err (Exn TypeError (builtin_msg TypeError v))
  end.

(** [v[0]].  The keys of a parsed JSON object are strings, so [0] is never
    one of them. *)
Definition py_getitem0 (v : json) : res json :=
  match v with
  | JArr (x :: _) => Ok x
  | JArr [] => Err (Exn IndexError "list index out of range")
  | JStr s =>
      match utf8_chars s with
      | c :: _ => Ok (JStr c)
      | [] => Err (Exn IndexError "string index out of range")
      end
  | JObj _ => Err (Exn KeyError (py_repr (JInt 0)))
  | _ => Err (Exn TypeError (builtin_msg TypeError v))
  end.

(** [v[:8]]. *)
Definition py_slice8 (v : json) : res json :=
  match v with
  | JArr l => Ok (JArr (take 8 l))
  | JStr s => Ok (JStr (join (take 8 (utf8_chars s))))
  | JObj _ =>
      if slice_hashable
      then Err (Exn KeyError "slice(None, 8, None)")
      else Err (Exn TypeError (builtin_msg TypeError v))
  | _ => Err (Exn TypeError (builtin_msg TypeError v))
  end.

(** The elements a [for] loop or a comprehension visits. *)
Definition py_iter (v : json) : res (list json) :=
  match v with
  | JArr l => Ok l
  | JStr s => Ok (map JStr (utf8_chars s))
  | JObj kvs => Ok (map (fun kv => JStr (fst kv)) kvs)
  | _ => Err (Exn TypeError (builtin_msg TypeError v))
  end.

(** [v != s] for a string [s]: only an equal [str] compares equal. *)
Definition py_ne_str (v : json) (s : string) : bool :=
  match v with
  | JStr s' => negb (String.eqb s' s)
  | _ => true
  end.

(** Map a fallible function over a list, left to right, stopping at the
    first exception. *)
Fixpoint omapM {A B} (f : A -> res B) (l : list A) : res (list B) :=
  match l with
  | [] => Ok []
  | x :: rest =>
      rbind (f x) (fun y => rbind (omapM f rest) (fun ys => Ok (y :: ys)))
  end.

(** ** pydantic field validation (lax mode, no coercion of numbers to str) *)

Definition validate_str (v : json) : option string :=
  match v with
  | JStr s => Some s
  | _ => None
  end.

Definition validate_dict (v : json) : option (list (string * json)) :=
  match v with
  | JObj kvs => Some kvs
  | _ => None
  end.

Definition validate_list_str (v : json) : option (list string) :=
  match v with
  | JArr l => mapM validate_str l
  | _ => None
  end.

(** [Optional[T]]: [None] passes as [None], anything else goes to [T]. *)
Definition validate_optional {A} (f : json -> option A) (v : json) : option (option A) :=
  match v with
  | JNull => Some None
  | _ => Some <$> f v
  end.

Definition dump_optional {A} (f : A -> json) (o : option A) : json :=
  match o with
  | Some a => f a
  | None => JNull
  end.

End Python.

(** ** The pydantic models (lines 59-79) *)

Record InputScanOutput : Type := {
  is_off_topic : bool;
  reason : string
}.

Record OutputScanResult : Type := {
  contains_profanity : bool;
  explanation : string
}.

Module PlaceOfInterest.
Record t : Type := {
  name : string;
  description : string;
  business_status : option string;
  opening_hours : option (list (string * json));
  rating : option float;
  types : option (list string);
  user_ratings_total : option Z
}.

Section Model.
Context `{PyLib}.

(** [PlaceOfInterest(name=..., ...)]: every field is validated; one failure
    raises ValidationError. *)
Definition new (name description business_status opening_hours rating types
    user_ratings_total : json) : res t :=
  match validate_str name, validate_str description,
        validate_optional validate_str business_status,
        validate_optional validate_dict opening_hours,
        validate_optional lax_float rating,
        validate_optional validate_list_str types,
        validate_optional lax_int user_ratings_total with
  | Some n, Some d, Some b, Some o, Some r, Some ty, Some u =>
      Ok (Build_t n d b o r ty u)
  | _, _, _, _, _, _, _ =>
      Err (Exn ValidationError
        (validation_msg "PlaceOfInterest"
           [("name", name); ("description", description);
            ("business_status", business_status);
            ("opening_hours", opening_hours); ("rating", rating);
            ("types", types); ("user_ratings_total", user_ratings_total)]))
  end.

End Model.

(** [p.model_dump()]: a dict with the fields in declaration order. *)
Definition model_dump (p : t) : json :=
  JObj [("name", JStr (name p));
        ("description", JStr (description p));
        ("business_status", dump_optional JStr (business_status p));
        ("opening_hours", dump_optional JObj (opening_hours p));
        ("rating", dump_optional JFloat (rating p));
        ("types", dump_optional (fun l => JArr (map JStr l)) (types p));
        ("user_ratings_total", dump_optional JInt (user_ratings_total p))].

End PlaceOfInterest.

Module WeatherForecast.
Record t : Type := {
  time : string;
  description : string;
  temp : string
}.

Section Model.
Context `{PyLib}.

Definition new (time description temp : json) : res t :=
  match validate_str time, validate_str description, validate_str temp with
  | Some ti, Some d, Some te => Ok (Build_t ti d te)
  | _, _, _ =>
      Err (Exn ValidationError
        (validation_msg "WeatherForecast"
           [("time", time); ("description", description); ("temp", temp)]))
  end.

End Model.

Definition model_dump (p : t) : json :=
  JObj [("time", JStr (time p));
        ("description", JStr (description p));
        ("temp", JStr (temp p))].

End WeatherForecast.

Record GuardrailFunctionOutput (A : Type) : Type := {
  output_info : A;
  tripwire_triggered : bool
}.
Arguments output_info {A} _.
Arguments tripwire_triggered {A} _.

(** ** The outside world *)

(** The module constants read at lines 41-43. *)
Record Config : Type := {
  OPENAI_API_KEY : option string;
  GOOGLE_PLACES_API_KEY : option string;
  WEATHER_API_KEY : option string
}.

(** An HTTP response as [requests] presents it. *)
Record Response : Type := {
  status_code : Z;
  resp_reason : string;
  resp_url : string;
  (** the parsed body, or the decoder's message when the body is not JSON *)
  resp_body : json + string
}.

(** What the network and the agent runtime answer to each call. *)
Record World : Type := {
  (** [requests.get(url)]: a response, or the text of the RequestException
      the transport raised *)
  requests_get : string -> Response + string;
  (** [googlemaps.Client(key=...)]: [Some msg] when the constructor rejects
      the key with ValueError(msg) *)
  gmaps_Client : string -> option string;
  (** [gmaps.places(query=...)]: the response dict, or the exception raised *)
  gmaps_places : string -> res json;
  (** [Runner.run(input_guardrail_agent, input)] and its final output *)
  run_input_scanner : string -> res InputScanOutput;
  (** [Runner.run(output_guardrail_agent, output)] and its final output *)
  run_output_checker : string -> res OutputScanResult;
  (** [Runner.run_sync(agent, prompt)]: the final output, or the exception *)
  run_travel_advisor : string -> res string
}.

Section Program.
Context `{PyLib}.
Variable w : World.

(** ** Start-up (lines 40-56) *)

(** [os.getenv] on the environment left by [load_dotenv]. *)
Definition getenv (env : gmap string string) (k : string) : option string :=
  env !! k.

(** The loop over [required_env.items()], in insertion order. *)
Fixpoint check_required (items : list (string * option string)) : M unit :=
  match items with
  | [] => ret tt
  | (key, value) :: rest =>
      if truthy value then check_required rest
      else
        emit (Log ERROR ("Missing required environment variable: " ++ key));;
        raise (Exn RuntimeError ("Missing environment variable: " ++ key))
  end.

Definition startup (env : gmap string string) : M Config :=
  let openai := getenv env "OPENAI_API_KEY" in
  let places := getenv env "GOOGLE_PLACES_API_KEY" in
  let weather := getenv env "WEATHER_API_KEY" in
  emit (SetTracingKey openai);;
  check_required [("OPENAI_API_KEY", openai);
                  ("GOOGLE_PLACES_API_KEY", places);
                  ("WEATHER_API_KEY", weather)];;
  ret {| OPENAI_API_KEY := openai;
         GOOGLE_PLACES_API_KEY := places;
         WEATHER_API_KEY := weather |}.

(** The names of [required_env], and whether all of them are set and
    non-empty. *)
Definition required_keys : list string :=
  ["OPENAI_API_KEY"; "GOOGLE_PLACES_API_KEY"; "WEATHER_API_KEY"].

Definition required_set (env : gmap string string) : bool :=
  forallb (fun k => truthy (getenv env k)) required_keys.

(** ** Guardrails (lines 97-115) *)

Definition safe_input_guardrail (input : string)
    : M (GuardrailFunctionOutput InputScanOutput) :=
  emit (AgentRun "Input Scanner" input);;
  final_output <- lift (run_input_scanner w input);;
  ret {| output_info := final_output;
         tripwire_triggered := is_off_topic final_output |}.

Definition output_safety_guardrail (output : string)
    : M (GuardrailFunctionOutput OutputScanResult) :=
  emit (AgentRun "Output Tone Checker" output);;
  final_output <- lift (run_output_checker w output);;
  ret {| output_info := final_output;
         tripwire_triggered := contains_profanity final_output |}.

(** ** find_places_of_interest (lines 118-151) *)

(** The constructor call of lines 132-140. *)
Definition make_place (place : json) : res PlaceOfInterest.t :=
  rbind (py_get place "name" (JStr "No name provided")) (fun name =>
  rbind (py_get place "formatted_address" (JStr "No address provided")) (fun description =>
  rbind (py_get place "business_status" (JStr "No business status provided")) (fun business_status =>
  rbind (py_get place "opening_hours" JNull) (fun opening_hours =>
  rbind (py_get place "rating" JNull) (fun rating =>
  rbind (py_get place "types" JNull) (fun types =>
  rbind (py_get place "user_ratings_total" JNull) (fun user_ratings_total =>
  PlaceOfInterest.new name description business_status opening_hours rating
    types user_ratings_total))))))).

(** The body of the [for] loop, over the remaining results. *)
Fixpoint places_loop (items : list json) : M (list json) :=
  match items with
  | [] => ret []
  | place :: rest =>
      place_info <- lift (make_place place);;
      emit (Log INFO ("Found: " ++ PlaceOfInterest.name place_info ++ " - "
                      ++ PlaceOfInterest.description place_info));;
      places_list <- places_loop rest;;
      ret (PlaceOfInterest.model_dump place_info :: places_list)
  end.

Definition places_query (city : string) (interests : option string) : string :=
  strip (city ++ " points of interest"
         ++ (if truthy interests then " " ++ fstr_opt interests else "")).

Definition find_places_of_interest (cfg : Config) (city : string)
    (weather interests : option string) : M (list json) :=
  if truthy (GOOGLE_PLACES_API_KEY cfg) then
    emit (Log INFO ("Finding places of interest in " ++ city ++ "..."));;
    let key := fstr_opt (GOOGLE_PLACES_API_KEY cfg) in
    emit (PlacesClient key);;
    match gmaps_Client w key with
    | Some msg => raise (Exn ValueError msg)
    | None =>
        let query := places_query city interests in
        try_except
          (emit (PlacesQuery query);;
           response <- lift (gmaps_places w query);;
           results <- lift (py_get response "results" (JArr []));;
           items <- lift (py_iter results);;
           places_list <- places_loop items;;
           emit (Log INFO ("Found " ++ pretty (length places_list)
                           ++ " places of interest in " ++ city ++ "."));;
           ret places_list)
          (fun e =>
             if isinstance e [ApiError] then
               emit (Log ERROR ("Google Places API error: " ++ exn_str e));;
               ret []
             else
               emit (Log ERROR ("Unexpected error: " ++ exn_str e));;
               emit (Log ERROR (format_exc e));;
               ret [])
    end
  else raise (Exn ValueError "GOOGLE_PLACES_API_KEY environment variable not set.").

(** ** get_weather_forecast (lines 153-180) *)

(** [response.raise_for_status()]. *)
Definition raise_for_status (r : Response) : res unit :=
  if (400 <=? status_code r)%Z && (status_code r <? 500)%Z then
    Err (Exn HTTPError (pretty (status_code r) ++ " Client Error: "
                          ++ resp_reason r ++ " for url: " ++ resp_url r))
  else if (500 <=? status_code r)%Z && (status_code r <? 600)%Z then
    Err (Exn HTTPError (pretty (status_code r) ++ " Server Error: "
                          ++ resp_reason r ++ " for url: " ++ resp_url r))
  else Ok tt.

(** [response.json()]. *)
Definition Response_json (r : Response) : res json :=
  match resp_body r with
  | inl v => Ok v
  | inr msg => Err (Exn JSONDecodeError msg)
  end.

(** One element of the comprehension of lines 167-173. *)
Definition forecast_entry (f : json) : res json :=
  rbind (py_getitem f "dt_txt") (fun time =>
  rbind (py_getitem f "weather") (fun weather =>
  rbind (py_getitem0 weather) (fun weather0 =>
  rbind (py_getitem weather0 "description") (fun description =>
  rbind (py_getitem f "main") (fun main =>
  rbind (py_getitem main "temp") (fun temp =>
  rbind (WeatherForecast.new time description (JStr (py_str temp ++ "°C")))
    (fun wf => Ok (WeatherForecast.model_dump wf)))))))).

(** Lines 160-173: from the response to the list of records. *)
Definition forecasts_of (response : Response) : res (list json) :=
  rbind (raise_for_status response) (fun _ =>
  rbind (Response_json response) (fun data =>
  rbind (py_get data "cod" JNull) (fun cod =>
  if py_ne_str cod "200" then
    rbind (py_get data "message" (JStr "Unknown error")) (fun message =>
    Err (Exn ValueError ("API error: " ++ py_str message)))
  else
    rbind (py_get data "list" (JArr [])) (fun lst =>
    rbind (py_slice8 lst) (fun forecasts =>
    rbind (py_iter forecasts) (fun items =>
    omapM forecast_entry items)))))).

(** The record both [except] clauses return; its three arguments are
    strings, so the constructor accepts them. *)
Definition sentinel (e : exn) : json :=
  WeatherForecast.model_dump
    {| WeatherForecast.time := "";
       WeatherForecast.description := "Parsing error: " ++ exn_str e;
       WeatherForecast.temp := "" |}.

Definition weather_url (cfg : Config) (city : string) : string :=
  "http://api.openweathermap.org/data/2.5/forecast?q=" ++ city
  ++ "&units=metric&appid=" ++ fstr_opt (WEATHER_API_KEY cfg).

Definition get_weather_forecast (cfg : Config) (city : string) : M (list json) :=
  emit (Log INFO ("Fetching weather forecast for " ++ city ++ "..."));;
  let url := weather_url cfg city in
  try_except
    (emit (HttpGet url);;
     match requests_get w url with
     | inr msg => raise (Exn RequestException msg)
     | inl response => lift (forecasts_of response)
     end)
    (fun e =>
       if isinstance e [RequestException] then
         emit (Log ERROR ("Request error: " ++ exn_str e));;
         emit (Log ERROR (format_exc e));;
         ret [sentinel e]
       else if isinstance e [KeyError; IndexError; ValueError] then
         emit (Log ERROR ("Parsing error: " ++ exn_str e));;
         ret [sentinel e]
       else raise e).

(** ** Main block (lines 220-247)

    The assignment to [openai.api_key] (line 221) has no effect that the
    properties observe and is left out. *)

Definition input_prompt : string := "Enter your destination city: ".
Definition msg_empty_city : string := "City name cannot be empty.".
Definition msg_input_rejected : string :=
  "Please give me the destination city that you want to travel to within the next 24 hours.".
Definition msg_output_rejected : string := "Please try rephrasing your request.".
Definition msg_unexpected : string :=
  "An unexpected error occurred. Please try again later.".

Definition make_prompt (city : string) : string :=
  "I'm planning a trip within the next 24 hours to " ++ city ++ ". "
  ++ "Provide a detailed weather forecast for the next 24 hours, suggest suitable places of interest "
  ++ "based on the weather conditions, include the latest updates from the web about local events, "
  ++ "travel advisories, or relevant news. Also, provide practical advice for traveling there.".

(** [input(text)]: the line read, or EOFError at end of input. *)
Definition input (text : string) (stdin : option string) : M string :=
  emit (Prompt text);;
  match stdin with
  | Some line => ret line
  | None => raise (Exn EOFError "EOF when reading a line")
  end.

Definition Runner_run_sync (prompt : string) : M string :=
  emit (AgentRun "TravelAdvisor" prompt);;
  lift (run_travel_advisor w prompt).

Definition main (stdin : option string) : M unit :=
  line <- input input_prompt stdin;;
  let city := strip line in
  if String.eqb city "" then
    emit (Stdout msg_empty_city);;
    exit 1
  else
    emit (Log INFO ("Running TravelAdvisor for city: " ++ city));;
    let prompt := make_prompt city in
    try_except
      (final_output <- Runner_run_sync prompt;;
       emit (Stdout final_output))
      (fun e =>
         if isinstance e [InputGuardrailTripwireTriggered] then
           emit (Stdout msg_input_rejected)
         else if isinstance e [OutputGuardrailTripwireTriggered] then
           emit (Stdout msg_output_rejected)
         else
           emit (LogException "Unexpected error during TravelAdvisor execution" e);;
           emit (Stdout msg_unexpected)).

(** The script run as [__main__]: start-up, then the main block. *)
Definition program (env : gmap string string) (stdin : option string) : M unit :=
  startup env;;
  main stdin.

(** The status the process ends with. *)
Definition exit_status {A} (o : outcome A) : Z :=
  match o with
  | Ret _ => 0
  | Raise _ => 1
  | Exit c => c
  end.

End Program.

(** ** A concrete library instance and concrete worlds

    [plain_lib] is exact on [None], booleans and integers and on the
    validators' behaviour for floats and integers; it summarises the texts
    the properties never inspect.  It shows the interface is inhabited and
    lets the model run on concrete inputs. *)
Definition plain_repr (v : json) : string :=
  match v with
  | JNull => "None"
  | JBool true => "True"
  | JBool false => "False"
  | JInt n => pretty n
  | JFloat _ => "<float>"
  | JStr s => "'" ++ s ++ "'"
  | JArr _ => "[...]"
  | JObj _ => "{...}"
  end.

#[export] Instance plain_lib : PyLib := {|
  py_repr := plain_repr;
  builtin_msg := fun c v => ("unsupported operand: " ++ plain_repr v)%string;
  validation_msg := fun model _ => ("1 validation error for " ++ model)%string;
  format_exc := fun e => ("Traceback (most recent call last): " ++ exn_str e)%string;
  slice_hashable := true;
  lax_float := fun v => match v with JFloat f => Some f | _ => None end;
  lax_int := fun v => match v with JInt n => Some n | _ => None end;
  lax_float_JFloat := fun f => eq_refl;
  lax_int_JInt := fun n => eq_refl
|}.

Definition env_ok : gmap string string :=
  {[ "OPENAI_API_KEY" := "sk-test";
     "GOOGLE_PLACES_API_KEY" := "AIza-test";
     "WEATHER_API_KEY" := "owm-test" ]}.

Definition cfg_ok : Config :=
  {| OPENAI_API_KEY := Some "sk-test";
     GOOGLE_PLACES_API_KEY := Some "AIza-test";
     WEATHER_API_KEY := Some "owm-test" |}.

(** A world in which nothing answers: each call fails in transport. *)
Definition offline : World :=
  {| requests_get := fun _ => inr "connection refused";
     gmaps_Client := fun _ => None;
     gmaps_places := fun _ => Err (Exn OtherException "connection refused");
     run_input_scanner := fun _ => Err (Exn OtherException "connection refused");
     run_output_checker := fun _ => Err (Exn OtherException "connection refused");
     run_travel_advisor := fun _ => Err (Exn OtherException "connection refused") |}.

Definition with_weather (r : Response) : World :=
  {| requests_get := fun _ => inl r;
     gmaps_Client := gmaps_Client offline;
     gmaps_places := gmaps_places offline;
     run_input_scanner := run_input_scanner offline;
     run_output_checker := run_output_checker offline;
     run_travel_advisor := run_travel_advisor offline |}.

Definition with_places (r : res json) : World :=
  {| requests_get := requests_get offline;
     gmaps_Client := gmaps_Client offline;
     gmaps_places := fun _ => r;
     run_input_scanner := run_input_scanner offline;
     run_output_checker := run_output_checker offline;
     run_travel_advisor := run_travel_advisor offline |}.

Definition with_advisor (r : res string) : World :=
  {| requests_get := requests_get offline;
     gmaps_Client := gmaps_Client offline;
     gmaps_places := gmaps_places offline;
     run_input_scanner := run_input_scanner offline;
     run_output_checker := run_output_checker offline;
     run_travel_advisor := fun _ => r |}.

Definition with_scanners (i : res InputScanOutput) (o : res OutputScanResult) : World :=
  {| requests_get := requests_get offline;
     gmaps_Client := gmaps_Client offline;
     gmaps_places := gmaps_places offline;
     run_input_scanner := fun _ => i;
     run_output_checker := fun _ => o;
     run_travel_advisor := run_travel_advisor offline |}.

Definition ok_response (body : json) : Response :=
  {| status_code := 200; resp_reason := "OK";
     resp_url := "http://api.openweathermap.org/data/2.5/forecast";
     resp_body := inl body |}.

(** One 3-hour entry of the forecast, as the weather API documents it. *)
Definition forecast_item (dt_txt descr : string) (temp : json) : json :=
  JObj [("dt", JInt 1700000000);
        ("main", JObj [("temp", temp); ("humidity", JInt 60)]);
        ("weather", JArr [JObj [("id", JInt 800); ("main", JStr "Clear");
                                ("description", JStr descr)]]);
        ("dt_txt", JStr dt_txt)].

Definition forecast_body (items : list json) : json :=
  JObj [("cod", JStr "200"); ("message", JInt 0);
        ("cnt", JInt (Z.of_nat (length items))); ("list", JArr items)].

(** The events of the main block up to and including the agent run. *)
Definition main_started (line : string) : list event :=
  [Prompt input_prompt;
   Log INFO ("Running TravelAdvisor for city: " ++ strip line);
   AgentRun "TravelAdvisor" (make_prompt (strip line))].


Arguments strip : simpl never.
Arguments make_prompt : simpl never.
Arguments isinstance : simpl never.

(** ** Shapes of what the tools return *)

(** The exceptions an expression can raise are among [classes]. *)
Definition raises {A} (classes : list exn_class) (r : res A) : Prop :=
  forall e, r = Err e -> In (exn_cls e) classes.


(** The record returned on failure. *)
Definition is_sentinel (d : json) : Prop :=
  exists msg,
    d = JObj [("time", JStr ""); ("description", JStr ("Parsing error: " ++ msg));
              ("temp", JStr "")].



(** A body whose [cod] is the number 200, not the string. *)
Definition numeric_cod_world : World :=
  with_weather (ok_response (JObj [("cod", JInt 200); ("list", JArr [])])).

(** What the [try] block of get_weather_forecast evaluates to. *)
Definition weather_attempt `{PyLib} (w : World) (cfg : Config) (city : string)
    : res (list json) :=
  match requests_get w (weather_url cfg city) with
  | inr msg => Err (Exn RequestException msg)
  | inl response => forecasts_of response
  end.

(** What the [try] block of find_places_of_interest evaluates to. *)
Definition places_attempt `{PyLib} (w : World) (city : string)
    (interests : option string) : res (list json) :=
  rbind (gmaps_places w (places_query city interests)) (fun response =>
  rbind (py_get response "results" (JArr [])) (fun results =>
  rbind (py_iter results) (fun items =>
  rbind (omapM make_place items) (fun places =>
  Ok (map PlaceOfInterest.model_dump places))))).

(** The keys of a dumped PlaceOfInterest. *)
Definition place_fields : list string :=
  ["name"; "description"; "business_status"; "opening_hours"; "rating";
   "types"; "user_ratings_total"].

Definition has_place_fields (d : json) : Prop :=
  exists kvs, d = JObj kvs /\ map fst kvs = place_fields.

(** What C6 says of the list returned for the API results [rs]. *)
Definition one_record_per_result (rs out : list json) : Prop :=
  length out = length rs /\ Forall has_place_fields out.

(** The field [k] of a result is absent or satisfies [P]. *)
Definition absent_or (P : json -> Prop) (k : string)
    (place : list (string * json)) : Prop :=
  match assoc k place with
  | Some v => P v
  | None => True
  end.

(** A result whose fields, where present, have the types the places API
    documents for them. *)
Definition documented_place (place : list (string * json)) : Prop :=
  absent_or (fun v => exists s, v = JStr s) "name" place /\
  absent_or (fun v => exists s, v = JStr s) "formatted_address" place /\
  absent_or (fun v => exists s, v = JStr s) "business_status" place /\
  absent_or (fun v => exists d, v = JObj d) "opening_hours" place /\
  absent_or (fun v => exists f, v = JFloat f) "rating" place /\
  absent_or (fun v => exists l, v = JArr (map JStr l)) "types" place /\
  absent_or (fun v => exists n, v = JInt n) "user_ratings_total" place.

(** A places response with status OK whose only result has a null name. *)
Definition null_name_place : json :=
  JObj [("name", JNull);
        ("formatted_address", JStr "Piazza del Colosseo, 1, 00184 Roma RM, Italy");
        ("rating", JFloat 4.5)].

Definition null_name_world : World :=
  with_places (Ok (JObj [("html_attributions", JArr []);
                         ("results", JArr [null_name_place]);
                         ("status", JStr "OK")])).

(** A places response in which the API error is raised by the client. *)
Definition api_error_world : World :=
  with_places (Err (Exn ApiError "REQUEST_DENIED (The provided API key is invalid.)")).

(** A places response with two results, the second one bare. *)
Definition colosseum : json :=
  JObj [("business_status", JStr "OPERATIONAL");
        ("formatted_address", JStr "Piazza del Colosseo, 1, 00184 Roma RM, Italy");
        ("name", JStr "Colosseum");
        ("opening_hours", JObj [("open_now", JBool true)]);
        ("rating", JFloat 4.5);
        ("types", JArr [JStr "tourist_attraction"; JStr "point_of_interest"]);
        ("user_ratings_total", JInt 400000)].

Definition two_places_world : World :=
  with_places (Ok (JObj [("results", JArr [colosseum; JObj []]);
                         ("status", JStr "OK")])).

(** The records find_places_of_interest returns in [two_places_world]. *)
Definition colosseum_record : json :=
  JObj [("name", JStr "Colosseum");
        ("description", JStr "Piazza del Colosseo, 1, 00184 Roma RM, Italy");
        ("business_status", JStr "OPERATIONAL");
        ("opening_hours", JObj [("open_now", JBool true)]);
        ("rating", JFloat 4.5);
        ("types", JArr [JStr "tourist_attraction"; JStr "point_of_interest"]);
        ("user_ratings_total", JInt 400000)].

Definition bare_record : json :=
  JObj [("name", JStr "No name provided");
        ("description", JStr "No address provided");
        ("business_status", JStr "No business status provided");
        ("opening_hours", JNull); ("rating", JNull); ("types", JNull);
        ("user_ratings_total", JNull)].

(** ** Views of a trace *)


Definition is_error_log (ev : event) : bool :=
  match ev with
  | Log ERROR _ | LogException _ _ => true
  | _ => false
  end.

(** The first name of [required_env] whose value is absent or empty. *)
Definition first_missing (env : gmap string string) : option string :=
  List.find (fun k => negb (truthy (env !! k))) required_keys.

(** The line the main block prints when the agent run raises [e]. *)
Definition failure_message (e : exn) : string :=
  if isinstance e [InputGuardrailTripwireTriggered] then msg_input_rejected
  else if isinstance e [OutputGuardrailTripwireTriggered] then msg_output_rejected
  else msg_unexpected.

(** An environment in which two of the three variables are unusable. *)
Definition env_two_missing : gmap string string :=
  {[ "OPENAI_API_KEY" := "sk-test"; "GOOGLE_PLACES_API_KEY" := "" ]}.

(** A result the record type cannot hold: not a dict, or a dict whose name
    or formatted_address is present but is not a string. *)
Definition unusable_result (r : json) : Prop :=
  (forall place, r <> JObj place) \/
  (exists place v,
     r = JObj place /\
     (assoc "name" place = Some v \/ assoc "formatted_address" place = Some v) /\
     validate_str v = None).

(** A configuration without the places credential. *)
Definition cfg_no_places : Config :=
  {| OPENAI_API_KEY := Some "sk-test";
     GOOGLE_PLACES_API_KEY := None;
     WEATHER_API_KEY := Some "owm-test" |}.

(** A places response whose second result has a number for a name. *)
Definition numeric_name_world : World :=
  with_places (Ok (JObj [("results", JArr [colosseum; JObj [("name", JInt 7)]]);
                         ("status", JStr "OK")])).

(** An API entry of the documented shape and the record made from it:
    [time] is dt_txt, [description] that of the first weather element,
    [temp] the formatted main.temp with the unit. *)
Definition entry_record `{PyLib} (f record : json) : Prop :=
  exists fields time weather0 weathers description main temp,
    f = JObj fields /\
    assoc "dt_txt" fields = Some (JStr time) /\
    assoc "weather" fields = Some (JArr (JObj weather0 :: weathers)) /\
    assoc "description" weather0 = Some (JStr description) /\
    assoc "main" fields = Some (JObj main) /\
    assoc "temp" main = Some temp /\
    record = JObj [("time", JStr time); ("description", JStr description);
                   ("temp", JStr (py_str temp ++ "°C"))].

Definition noon_item : json := forecast_item "2024-05-01 12:00:00" "clear sky" (JInt 21).

Definition noon_record : json :=
  JObj [("time", JStr "2024-05-01 12:00:00"); ("description", JStr "clear sky");
        ("temp", JStr "21°C")].

(** A forecast of nine entries. *)
Definition nine_entries_world : World :=
  with_weather (ok_response (forecast_body (replicate 9 noon_item))).

(** A forecast whose second entry has no dt_txt. *)
Definition missing_time_world : World :=
  with_weather (ok_response (forecast_body
    [noon_item; JObj [("main", JObj [("temp", JInt 20)])]; noon_item])).

(** A 404 answer. *)
Definition not_found_response : Response :=
  {| status_code := 404; resp_reason := "Not Found";
     resp_url := "http://api.openweathermap.org/data/2.5/forecast?q=Atlantis";
     resp_body := inl (JObj [("cod", JStr "404"); ("message", JStr "city not found")]) |}.

(** A 200 answer whose body is not JSON. *)
Definition html_response : Response :=
  {| status_code := 200; resp_reason := "OK";
     resp_url := "http://api.openweathermap.org/data/2.5/forecast?q=Rome";
     resp_body := inr "Expecting value: line 1 column 1 (char 0)" |}.

(** A 200 answer that reports an API error in its body. *)
Definition invalid_key_world : World :=
  with_weather (ok_response (JObj [("cod", JInt 401);
                                   ("message", JStr "Invalid API key.")])).

(** A 200 answer whose body is a JSON array. *)
Definition array_body_world : World := with_weather (ok_response (JArr [])).

(** [city] is [line] without its leading and trailing whitespace
    characters: the code points of [line] are some whitespace, then a core
    that neither starts nor ends with whitespace, then whitespace again, and
    [city] is the core. *)
Definition stripped_from (line city : string) : Prop :=
  exists lead core trail,
    utf8_chars line = lead ++ core ++ trail /\
    forallb isspace lead = true /\
    forallb isspace trail = true /\
    (forall c rest, core = c :: rest -> isspace c = false) /\
    (forall init c, core = init ++ [c] -> isspace c = false) /\
    city = join core /\
    line = (join lead ++ city ++ join trail)%string.


(** A forecast whose second entry has a number for its dt_txt. *)
Definition numeric_time_world : World :=
  with_weather (ok_response (forecast_body
    [noon_item;
     JObj [("main", JObj [("temp", JInt 20)]);
           ("weather", JArr [JObj [("description", JStr "rain")]]);
           ("dt_txt", JInt 1700000000)]])).

(** * Properties *)

(** ** The monad *)

Lemma result_bind {A B} (m : M A) (k : A -> M B) :
  result (bind m k)
  = match result m with
    | Ret a => result (k a)
    | Raise e => Raise e
    | Exit c => Exit c
    end.
Proof.
  destruct m as [t [a | e | c]]; simpl; try reflexivity.
  destruct (k a); reflexivity.
Qed.

Lemma result_try_except {A} (m : M A) (h : exn -> M A) :
  result (try_except m h)
  = match result m with
    | Raise e => result (h e)
    | other => other
    end.
Proof.
  destruct m as [t [a | e | c]]; simpl; try reflexivity.
  destruct (h e); reflexivity.
Qed.

Lemma result_lift {A} (r : res A) :
  result (lift r) = match r with Ok a => Ret a | Err e => Raise e end.
Proof. destruct r; reflexivity. Qed.

Lemma result_emit_bind {B} (ev : event) (k : unit -> M B) :
  result (bind (emit ev) k) = result (k tt).
Proof. unfold bind, emit. destruct (k tt); reflexivity. Qed.

(** ** Stripping *)

Lemma utf8_split_nonempty (s : string) :
  forall pending cur, Forall (fun c => c <> "") (utf8_split s pending cur).
Proof.
  assert (Hflush : forall cur, Forall (fun c => c <> "") (flush cur)).
  { intros [| a cur]; simpl; [constructor |].
    constructor; [discriminate | constructor]. }
  induction s as [| a t IH]; intros pending cur; simpl.
  - apply Hflush.
  - destruct pending as [| p].
    + apply Forall_app. split; [apply Hflush | apply IH].
    + apply IH.
Qed.

Lemma join_empty (cs : list string) :
  Forall (fun c => c <> "") cs -> join cs = "" -> cs = [].
Proof.
  destruct cs as [| c cs]; [reflexivity |].
  intros Hne Hj. inversion Hne as [| ? ? Hc _]; subst.
  simpl in Hj. destruct c; [congruence | discriminate].
Qed.

Lemma drop_while_all {A} (p : A -> bool) (l : list A) :
  forallb p l = true -> drop_while p l = [].
Proof.
  induction l as [| x l IH]; simpl; [reflexivity |].
  intros Hall. apply andb_prop in Hall as [Hx Hl]. rewrite Hx. auto.
Qed.

Lemma drop_while_nil {A} (p : A -> bool) (l : list A) :
  drop_while p l = [] -> forallb p l = true.
Proof.
  induction l as [| x l IH]; simpl; [reflexivity |].
  destruct (p x); [auto | discriminate].
Qed.

Lemma drop_while_head {A} (p : A -> bool) (l : list A) x rest :
  drop_while p l = x :: rest -> p x = false.
Proof.
  induction l as [| y l IH]; simpl; [discriminate |].
  destruct (p y) eqn:Hy; [auto |].
  intros Heq. injection Heq as -> _. exact Hy.
Qed.

Lemma drop_while_Forall {A} (P : A -> Prop) (p : A -> bool) (l : list A) :
  Forall P l -> Forall P (drop_while p l).
Proof.
  induction 1 as [| x l Hx Hl IH]; simpl; [constructor |].
  destruct (p x); [exact IH | constructor; assumption].
Qed.

Lemma forallb_rev {A} (p : A -> bool) (l : list A) :
  forallb p (rev l) = forallb p l.
Proof.
  induction l as [| x l IH]; simpl; [reflexivity |].
  rewrite forallb_app, IH. simpl. rewrite andb_true_r. apply andb_comm.
Qed.

(** [strip] returns the empty string exactly on whitespace-only input. *)
Lemma strip_empty_iff (s : string) : strip s = "" <-> whitespace_only s.
Proof.
  unfold strip, whitespace_only. split.
  - intros Hj. apply join_empty in Hj.
    + apply (f_equal (@rev string)) in Hj. rewrite rev_involutive in Hj.
      simpl in Hj. apply drop_while_nil in Hj. rewrite forallb_rev in Hj.
      destruct (drop_while isspace (utf8_chars s)) as [| x rest] eqn:Hd.
      * apply drop_while_nil. exact Hd.
      * apply drop_while_head in Hd. simpl in Hj. rewrite Hd in Hj.
        discriminate.
    + apply Forall_rev, drop_while_Forall, Forall_rev, drop_while_Forall.
      apply utf8_split_nonempty.
  - intros Hall. rewrite (drop_while_all _ _ Hall). reflexivity.
Qed.

Lemma sapp_cons (x : ascii) (a b : string) :
  (String x a ++ b = String x (a ++ b))%string.
Proof. reflexivity. Qed.

Lemma sapp_assoc (a b c : string) : ((a ++ b) ++ c = a ++ (b ++ c))%string.
Proof.
  induction a as [| x a IH]; [reflexivity |].
  rewrite !sapp_cons, IH. reflexivity.
Qed.

Lemma sapp_nil_r (a : string) : (a ++ "" = a)%string.
Proof.
  induction a as [| x a IH]; [reflexivity |].
  rewrite sapp_cons, IH. reflexivity.
Qed.

Lemma join_app (a b : list string) : join (a ++ b) = (join a ++ join b)%string.
Proof.
  induction a as [| x a IH]; simpl; [reflexivity |].
  rewrite IH. symmetry. apply sapp_assoc.
Qed.

Lemma join_flush (cur : string) : join (flush cur) = cur.
Proof. destruct cur; simpl; [reflexivity |]. rewrite sapp_nil_r. reflexivity. Qed.

(** Splitting into code points loses nothing. *)
Lemma join_utf8_split (s : string) :
  forall pending cur, join (utf8_split s pending cur) = (cur ++ s)%string.
Proof.
  induction s as [| a t IH]; intros pending cur; simpl.
  - rewrite join_flush, sapp_nil_r. reflexivity.
  - destruct pending as [| p].
    + rewrite join_app, join_flush, IH. reflexivity.
    + rewrite IH, sapp_assoc. reflexivity.
Qed.

Lemma join_utf8_chars (s : string) : join (utf8_chars s) = s.
Proof. apply (join_utf8_split s 0 ""). Qed.

Lemma drop_while_split {A} (p : A -> bool) (l : list A) :
  exists pre, l = pre ++ drop_while p l /\ forallb p pre = true.
Proof.
  induction l as [| x l (pre & Hl & Hpre)]; simpl.
  - exists []. split; reflexivity.
  - destruct (p x) eqn:Hx.
    + exists (x :: pre). simpl. rewrite Hx, Hpre. split; [congruence | reflexivity].
    + exists []. split; reflexivity.
Qed.

(** What [strip] keeps: the line between its leading and its trailing
    whitespace. *)
Lemma strip_stripped_from (line : string) : stripped_from line (strip line).
Proof.
  unfold stripped_from, strip.
  set (cs := utf8_chars line).
  destruct (drop_while_split isspace cs) as (lead & Hcs & Hlead).
  set (m := drop_while isspace cs) in *.
  destruct (drop_while_split isspace (rev m)) as (pre & Hm & Hpre).
  set (x := drop_while isspace (rev m)) in *.
  assert (Hm' : m = rev x ++ rev pre).
  { rewrite <- rev_app_distr, <- Hm, rev_involutive. reflexivity. }
  exists lead, (rev x), (rev pre).
  split; [rewrite Hcs at 1; rewrite Hm' at 1; reflexivity |].
  split; [exact Hlead |].
  split; [rewrite forallb_rev; exact Hpre |].
  split.
  { intros c rest Hcore. rewrite Hcore in Hm'. simpl in Hm'.
    apply (drop_while_head isspace cs c (rest ++ rev pre)). exact Hm'. }
  split.
  { intros init c Hcore.
    assert (Hx : x = c :: rev init).
    { rewrite <- (rev_involutive x), Hcore, rev_app_distr. reflexivity. }
    apply (drop_while_head isspace (rev m) c (rev init)). exact Hx. }
  split; [reflexivity |].
  rewrite <- !join_app, <- Hm', <- Hcs. symmetry. apply join_utf8_chars.
Qed.

(** ** Start-up *)

Section Facts.
Context `{PyLib}.
Variable w : World.

Lemma startup_ok (env : gmap string string) :
  required_set env = true ->
  startup env
  = ([SetTracingKey (getenv env "OPENAI_API_KEY")],
     Ret {| OPENAI_API_KEY := getenv env "OPENAI_API_KEY";
            GOOGLE_PLACES_API_KEY := getenv env "GOOGLE_PLACES_API_KEY";
            WEATHER_API_KEY := getenv env "WEATHER_API_KEY" |}).
Proof.
  unfold required_set, required_keys. simpl. rewrite andb_true_r.
  intros Hset. apply andb_prop in Hset as [H1 Hset].
  apply andb_prop in Hset as [H2 H3].
  unfold startup. simpl. rewrite H1, H2, H3. reflexivity.
Qed.

Lemma startup_missing (env : gmap string string) :
  required_set env = false ->
  exists key,
    In key required_keys /\ truthy (getenv env key) = false /\
    startup env
    = ([SetTracingKey (getenv env "OPENAI_API_KEY");
        Log ERROR ("Missing required environment variable: " ++ key)],
       Raise (Exn RuntimeError ("Missing environment variable: " ++ key))).
Proof.
  unfold required_set, required_keys. simpl. rewrite andb_true_r.
  intros Hset. unfold startup. simpl.
  destruct (truthy (getenv env "OPENAI_API_KEY")) eqn:H1.
  - destruct (truthy (getenv env "GOOGLE_PLACES_API_KEY")) eqn:H2.
    + destruct (truthy (getenv env "WEATHER_API_KEY")) eqn:H3;
        [discriminate |].
      exists "WEATHER_API_KEY". simpl. auto 6.
    + exists "GOOGLE_PLACES_API_KEY". simpl. auto 6.
  - exists "OPENAI_API_KEY". simpl. auto 6.
Qed.

Lemma truthy_false (o : option string) :
  truthy o = false <-> o = None \/ o = Some "".
Proof.
  destruct o as [s |]; simpl.
  - rewrite negb_false_iff, String.eqb_eq. split.
    + intros ->. auto.
    + intros [Hn | Hs]; [discriminate | congruence].
  - split; auto.
Qed.

End Facts.

(** ** The main block *)

Lemma main_empty `{PyLib} (w : World) (line : string) :
  strip line = "" ->
  main w (Some line) = ([Prompt input_prompt; Stdout msg_empty_city], Exit 1).
Proof. intros Hs. unfold main. simpl. rewrite Hs. reflexivity. Qed.

Lemma main_run `{PyLib} (w : World) (line : string) :
  strip line <> "" ->
  exists rest o,
    main w (Some line) = (main_started line ++ rest, o) /\
    match run_travel_advisor w (make_prompt (strip line)) with
    | Ok final_output => rest = [Stdout final_output] /\ o = Ret tt
    | Err e =>
        o = Ret tt /\
        rest =
          if isinstance e [InputGuardrailTripwireTriggered]
          then [Stdout msg_input_rejected]
          else if isinstance e [OutputGuardrailTripwireTriggered]
          then [Stdout msg_output_rejected]
          else [LogException "Unexpected error during TravelAdvisor execution" e;
                Stdout msg_unexpected]
    end.
Proof.
  intros Hs. apply String.eqb_neq in Hs.
  unfold main, Runner_run_sync. simpl. rewrite Hs.
  destruct (run_travel_advisor w (make_prompt (strip line))) as [out | e]; simpl.
  - eexists _, _. split; [reflexivity |]. auto.
  - destruct (isinstance e [InputGuardrailTripwireTriggered]); simpl.
    + eexists _, _. split; [reflexivity |]. auto.
    + destruct (isinstance e [OutputGuardrailTripwireTriggered]); simpl;
        eexists _, _; (split; [reflexivity |]); auto.
Qed.

(** C4: when one of the three required environment variables is absent or
    empty, the program ends with RuntimeError naming the first such variable,
    having logged it, and its trace holds no network call. *)
Theorem missing_env_fails_before_network `{PyLib} (w : World)
    (env : gmap string string) (stdin : option string) (k : string) :
  In k required_keys ->
  env !! k = None \/ env !! k = Some "" ->
  exists key,
    In key required_keys /\
    (env !! key = None \/ env !! key = Some "") /\
    program w env stdin
    = ([SetTracingKey (env !! "OPENAI_API_KEY");
        Log ERROR ("Missing required environment variable: " ++ key)],
       Raise (Exn RuntimeError ("Missing environment variable: " ++ key))) /\
    existsb is_network (trace (program w env stdin)) = false.
Proof.
  intros Hk Hmiss. apply truthy_false in Hmiss.
  assert (Hset : required_set env = false).
  { apply not_true_is_false. intros Hall. unfold required_set in Hall.
    rewrite forallb_forall in Hall. specialize (Hall k Hk).
    unfold getenv in Hall. congruence. }
  destruct (startup_missing env Hset) as (key & Hin & Hfalse & Hrun).
  exists key. split; [exact Hin |]. split; [apply truthy_false, Hfalse |].
  assert (Hp : program w env stdin
               = ([SetTracingKey (env !! "OPENAI_API_KEY");
                   Log ERROR ("Missing required environment variable: " ++ key)],
                  Raise (Exn RuntimeError ("Missing environment variable: " ++ key)))).
  { unfold program. rewrite Hrun. reflexivity. }
  split; [exact Hp |]. rewrite Hp. reflexivity.
Qed.

Lemma missing_env_fails_before_network_witness :
  exists key,
    In key required_keys /\
    (delete "WEATHER_API_KEY" env_ok !! key = None
     \/ delete "WEATHER_API_KEY" env_ok !! key = Some "") /\
    program offline (delete "WEATHER_API_KEY" env_ok) (Some "Rome")
    = ([SetTracingKey (delete "WEATHER_API_KEY" env_ok !! "OPENAI_API_KEY");
        Log ERROR ("Missing required environment variable: " ++ key)],
       Raise (Exn RuntimeError ("Missing environment variable: " ++ key))) /\
    existsb is_network
      (trace (program offline (delete "WEATHER_API_KEY" env_ok) (Some "Rome")))
    = false.
Proof.
  apply (missing_env_fails_before_network offline
           (delete "WEATHER_API_KEY" env_ok) (Some "Rome") "WEATHER_API_KEY").
  - simpl. auto.
  - left. vm_compute. reflexivity.
Defined.



(** C8: the line read is stripped before the emptiness test.  On a line of
    whitespace only the program prints the error message and exits with
    status 1 without running the agent.  On any other line the stripped
    city is the line without its leading and trailing whitespace
    characters, and the agent is run once, on the prompt text with that
    stripped city, not the raw line, after "to ". *)
Theorem stripped_city_decides `{PyLib} (w : World) (env : gmap string string)
    (line : string) :
  required_set env = true ->
  (whitespace_only line ->
     program w env (Some line)
     = ([SetTracingKey (env !! "OPENAI_API_KEY"); Prompt input_prompt;
         Stdout msg_empty_city], Exit 1) /\
     exit_status (result (program w env (Some line))) = 1%Z /\
     existsb is_agent_run (trace (program w env (Some line))) = false) /\
  (~ whitespace_only line ->
     exists city,
       city = strip line /\
       city <> "" /\
       stripped_from line city /\
       exists rest,
         trace (program w env (Some line))
         = [SetTracingKey (env !! "OPENAI_API_KEY");
            Prompt "Enter your destination city: ";
            Log INFO ("Running TravelAdvisor for city: " ++ city);
            AgentRun "TravelAdvisor"
              ("I'm planning a trip within the next 24 hours to " ++ city
               ++ ". Provide a detailed weather forecast for the next 24 hours, suggest suitable places of interest based on the weather conditions, include the latest updates from the web about local events, travel advisories, or relevant news. Also, provide practical advice for traveling there.")]
           ++ rest /\
         existsb is_agent_run rest = false).
Proof.
  intros Hset. split.
  - intros Hws. apply strip_empty_iff in Hws.
    assert (Hp : program w env (Some line)
                 = ([SetTracingKey (env !! "OPENAI_API_KEY"); Prompt input_prompt;
                     Stdout msg_empty_city], Exit 1)).
    { unfold program. rewrite (startup_ok env Hset).
      rewrite (main_empty w line Hws). reflexivity. }
    rewrite Hp. auto.
  - intros Hws.
    assert (Hs : strip line <> "").
    { intros Hs. apply Hws, strip_empty_iff, Hs. }
    exists (strip line). split; [reflexivity |]. split; [exact Hs |].
    split; [apply strip_stripped_from |].
    destruct (main_run w line Hs) as (rest & o & Hmain & Hrest).
    exists rest. split.
    + unfold program. rewrite (startup_ok env Hset), Hmain. reflexivity.
    + destruct (run_travel_advisor w (make_prompt (strip line))) as [out | e].
      * destruct Hrest as [-> _]. reflexivity.
      * destruct Hrest as [_ ->].
        destruct (isinstance e [InputGuardrailTripwireTriggered]);
          [reflexivity |].
        destruct (isinstance e [OutputGuardrailTripwireTriggered]);
          reflexivity.
Qed.

Lemma stripped_city_decides_witness :
  (program (with_advisor (Ok "# Rome")) env_ok (Some "  ")
   = ([SetTracingKey (env_ok !! "OPENAI_API_KEY"); Prompt input_prompt;
       Stdout msg_empty_city], Exit 1) /\
   exit_status (result (program (with_advisor (Ok "# Rome")) env_ok (Some "  ")))
   = 1%Z /\
   existsb is_agent_run
     (trace (program (with_advisor (Ok "# Rome")) env_ok (Some "  "))) = false) /\
  (exists city,
     city = "Rome" /\
     city <> "" /\
     stripped_from "  Rome " city /\
     exists rest,
       trace (program (with_advisor (Ok "# Rome")) env_ok (Some "  Rome "))
       = [SetTracingKey (env_ok !! "OPENAI_API_KEY");
          Prompt "Enter your destination city: ";
          Log INFO ("Running TravelAdvisor for city: " ++ city);
          AgentRun "TravelAdvisor"
            ("I'm planning a trip within the next 24 hours to " ++ city
             ++ ". Provide a detailed weather forecast for the next 24 hours, suggest suitable places of interest based on the weather conditions, include the latest updates from the web about local events, travel advisories, or relevant news. Also, provide practical advice for traveling there.")]
         ++ rest /\
       existsb is_agent_run rest = false).
Proof.
  split.
  - apply (proj1 (stripped_city_decides (with_advisor (Ok "# Rome")) env_ok "  "
                    eq_refl)).
    vm_compute. reflexivity.
  - apply (proj2 (stripped_city_decides (with_advisor (Ok "# Rome")) env_ok
                    "  Rome " eq_refl)).
    vm_compute. discriminate.
Defined.

(** A line with surrounding blanks, run: the prompt names the stripped
    city; a no-break space and a tab are stripped as well, a letter with an
    accent is kept. *)
Example stripped_city_in_prompt :
  strip "  Rome " = "Rome" /\
  strip (String (ascii_of_N 194) (String (ascii_of_N 160) "São Paulo	")) = "São Paulo" /\
  program (with_advisor (Ok "# Rome")) env_ok (Some "  Rome ")
  = ([SetTracingKey (Some "sk-test"); Prompt "Enter your destination city: ";
      Log INFO "Running TravelAdvisor for city: Rome";
      AgentRun "TravelAdvisor"
        "I'm planning a trip within the next 24 hours to Rome. Provide a detailed weather forecast for the next 24 hours, suggest suitable places of interest based on the weather conditions, include the latest updates from the web about local events, travel advisories, or relevant news. Also, provide practical advice for traveling there.";
      Stdout "# Rome"], Ret tt).
Proof. repeat split; vm_compute; reflexivity. Qed.





(** C7: the input guardrail reports the tripwire exactly when the topic
    classifier's result has [is_off_topic] set, and the output guardrail
    exactly when the tone classifier's result has [contains_profanity] set;
    a classifier run that raises makes the guardrail raise the same. *)
Theorem guardrails_trip_iff `{PyLib} (w : World) (input output : string) :
  result (safe_input_guardrail w input)
  = match run_input_scanner w input with
    | Ok r => Ret {| output_info := r; tripwire_triggered := is_off_topic r |}
    | Err e => Raise e
    end /\
  result (output_safety_guardrail w output)
  = match run_output_checker w output with
    | Ok r => Ret {| output_info := r; tripwire_triggered := contains_profanity r |}
    | Err e => Raise e
    end /\
  ((exists g, result (safe_input_guardrail w input) = Ret g
              /\ tripwire_triggered g = true)
   <-> (exists r, run_input_scanner w input = Ok r /\ is_off_topic r = true)) /\
  ((exists g, result (output_safety_guardrail w output) = Ret g
              /\ tripwire_triggered g = true)
   <-> (exists r, run_output_checker w output = Ok r
                  /\ contains_profanity r = true)).
Proof.
  unfold safe_input_guardrail, output_safety_guardrail.
  destruct (run_input_scanner w input) as [ri | ei];
    destruct (run_output_checker w output) as [ro | eo]; simpl;
    (split; [reflexivity |]); (split; [reflexivity |]); split; split;
    try (intros (g & Hg & Ht); congruence);
    try (intros (r & Hr & Ht); congruence).
  all: try (intros (g & Hg & Ht); injection Hg as <-; eexists; split;
            [reflexivity | exact Ht]).
  all: try (intros (r & Hr & Ht); injection Hr as <-; eexists; split;
            [reflexivity | exact Ht]).
Qed.

(** An off-topic input trips the input guardrail; a clean output does not
    trip the output guardrail. *)
Example guardrails_run :
  result (safe_input_guardrail
            (with_scanners (Ok {| is_off_topic := true; reason := "homework" |})
                           (Ok {| contains_profanity := false; explanation := "" |}))
            "Solve my homework")
  = Ret {| output_info := {| is_off_topic := true; reason := "homework" |};
           tripwire_triggered := true |}
  /\ result (output_safety_guardrail
               (with_scanners (Ok {| is_off_topic := true; reason := "homework" |})
                              (Ok {| contains_profanity := false; explanation := "" |}))
               "# Rome")
     = Ret {| output_info := {| contains_profanity := false; explanation := "" |};
              tripwire_triggered := false |}.
Proof. split; reflexivity. Qed.

(** ** Pure steps and the exceptions they raise *)

Lemma rbind_Ok {A B} (r : res A) (k : A -> res B) (b : B) :
  rbind r k = Ok b -> exists a, r = Ok a /\ k a = Ok b.
Proof. destruct r as [a | e]; simpl; [eauto | discriminate]. Qed.

Lemma raises_rbind {A B} (c1 c2 : list exn_class) (r : res A) (k : A -> res B) :
  raises c1 r -> (forall a, raises c2 (k a)) -> raises (c1 ++ c2) (rbind r k).
Proof.
  intros Hr Hk e. destruct r as [a | e']; simpl; intros Heq; apply in_or_app.
  - right. exact (Hk a e Heq).
  - left. injection Heq as <-. exact (Hr e' eq_refl).
Qed.

Lemma raises_Ok {A} (c : list exn_class) (a : A) : raises c (Ok a).
Proof. intros e Heq. discriminate. Qed.

Lemma raises_Err {A} (c : list exn_class) (e : exn) :
  In (exn_cls e) c -> raises c (@Err A e).
Proof. intros Hin e' Heq. injection Heq as <-. exact Hin. Qed.

Lemma raises_incl {A} (c c' : list exn_class) (r : res A) :
  raises c r -> incl c c' -> raises c' r.
Proof. intros Hr Hincl e Heq. apply Hincl, (Hr e Heq). Qed.


Lemma omapM_Ok {A B} (f : A -> res B) (l : list A) (ys : list B) :
  omapM f l = Ok ys <-> Forall2 (fun x y => f x = Ok y) l ys.
Proof.
  revert ys. induction l as [| x l IH]; intros ys; simpl.
  - split.
    + intros Heq. injection Heq as <-. constructor.
    + intros Hall. inversion Hall. reflexivity.
  - split.
    + intros Heq. apply rbind_Ok in Heq as (y & Hx & Heq).
      apply rbind_Ok in Heq as (ys' & Hl & Heq). injection Heq as <-.
      constructor; [exact Hx | apply IH, Hl].
    + intros Hall. inversion Hall as [| ? y ? ys' Hx Hl]; subst.
      rewrite Hx. simpl. apply IH in Hl. rewrite Hl. reflexivity.
Qed.

Section PureFacts.
Context `{PyLib}.


Lemma py_getitem_raises v k : raises [KeyError; TypeError] (py_getitem v k).
Proof.
  destruct v; simpl; try (apply raises_Err; simpl; auto).
  destruct (assoc k kvs); [apply raises_Ok | apply raises_Err; simpl; auto].
Qed.

Lemma py_getitem0_raises v :
  raises [KeyError; TypeError; IndexError] (py_getitem0 v).
Proof.
  destruct v as [| | | | s | l |]; simpl; try (apply raises_Err; simpl; auto).
  - destruct (utf8_chars s); [apply raises_Err; simpl; auto | apply raises_Ok].
  - destruct l; [apply raises_Err; simpl; auto | apply raises_Ok].
Qed.



Lemma WeatherForecast_new_raises t d tp :
  raises [ValidationError] (WeatherForecast.new t d tp).
Proof.
  unfold WeatherForecast.new.
  destruct (validate_str t), (validate_str d), (validate_str tp);
    first [apply raises_Ok | apply raises_Err; simpl; auto].
Qed.

Lemma raise_for_status_raises r : raises [HTTPError] (raise_for_status r).
Proof.
  unfold raise_for_status.
  destruct ((400 <=? status_code r)%Z && (status_code r <? 500)%Z);
    [apply raises_Err; simpl; auto |].
  destruct ((500 <=? status_code r)%Z && (status_code r <? 600)%Z);
    [apply raises_Err; simpl; auto | apply raises_Ok].
Qed.


(** The classes an element of the comprehension can raise. *)
Lemma forecast_entry_raises f :
  raises [KeyError; TypeError; IndexError; ValidationError] (forecast_entry f).
Proof.
  unfold forecast_entry.
  eapply raises_incl.
  - apply raises_rbind; [apply py_getitem_raises | intros time].
    apply raises_rbind; [apply py_getitem_raises | intros weather].
    apply raises_rbind; [apply py_getitem0_raises | intros weather0].
    apply raises_rbind; [apply py_getitem_raises | intros description].
    apply raises_rbind; [apply py_getitem_raises | intros main].
    apply raises_rbind; [apply py_getitem_raises | intros temp].
    apply raises_rbind; [apply WeatherForecast_new_raises | intros wf].
    apply (raises_Ok []).
  - intros c Hin. simpl in Hin. simpl. intuition.
Qed.

End PureFacts.

(** ** get_weather_forecast *)

Section WeatherFacts.
Context `{PyLib}.
Variable w : World.

Lemma weather_result (cfg : Config) (city : string) :
  result (get_weather_forecast w cfg city)
  = match weather_attempt w cfg city with
    | Ok out => Ret out
    | Err e =>
        if isinstance e [RequestException] then Ret [sentinel e]
        else if isinstance e [KeyError; IndexError; ValueError]
        then Ret [sentinel e]
        else Raise e
    end.
Proof.
  unfold get_weather_forecast, weather_attempt.
  destruct (requests_get w (weather_url cfg city)) as [response | msg]; simpl.
  - destruct (forecasts_of response) as [out | e]; simpl; [reflexivity |].
    destruct (isinstance e [RequestException]); [reflexivity |].
    destruct (isinstance e [KeyError; IndexError; ValueError]); reflexivity.
  - reflexivity.
Qed.


(** A string is not a forecast entry: the comprehension over the characters
    of a string yields nothing or raises. *)
Lemma omapM_entries_of_chars (cs : list string) (out : list json) :
  omapM forecast_entry (map JStr cs) = Ok out -> out = [].
Proof.
  destruct cs as [| c cs]; simpl.
  - intros Heq. injection Heq as <-. reflexivity.
  - discriminate.
Qed.


End WeatherFacts.


(** ** Failures of the weather API *)

Lemma cod_not_200 `{PyLib} (kvs : list (string * json)) :
  assoc "cod" kvs <> Some (JStr "200") ->
  py_ne_str (default JNull (assoc "cod" kvs)) "200" = true.
Proof.
  intros Hne. destruct (assoc "cod" kvs) as [v |]; simpl; [| reflexivity].
  destruct v; simpl; try reflexivity.
  apply negb_true_iff, String.eqb_neq. congruence.
Qed.

(** C9: on a transport error, and on a response whose body is an object
    with a [cod] other than the string "200" (a number 200 or no [cod] at
    all included), get_weather_forecast returns exactly one record, with
    empty [time] and [temp] and a [description] that starts with
    "Parsing error: ". *)
Theorem weather_failure_sentinel `{PyLib} (w : World) (cfg : Config)
    (city : string) :
  (exists msg, requests_get w (weather_url cfg city) = inr msg)
  \/ (exists r kvs,
        requests_get w (weather_url cfg city) = inl r
        /\ resp_body r = inl (JObj kvs)
        /\ assoc "cod" kvs <> Some (JStr "200")) ->
  exists msg,
    result (get_weather_forecast w cfg city)
    = Ret [JObj [("time", JStr "");
                 ("description", JStr ("Parsing error: " ++ msg));
                 ("temp", JStr "")]].
Proof.
  intros [(msg & Hget) | (r & kvs & Hget & Hbody & Hcod)];
    rewrite weather_result; unfold weather_attempt; rewrite Hget.
  - exists msg. reflexivity.
  - unfold forecasts_of.
    destruct (raise_for_status r) as [[] | e] eqn:Hst; simpl.
    + unfold Response_json. rewrite Hbody. simpl.
      rewrite (cod_not_200 kvs Hcod). simpl.
      eexists. reflexivity.
    + apply raise_for_status_raises in Hst. simpl in Hst.
      destruct Hst as [Hc | []]. destruct e as [c s]. simpl in Hc. subst c.
      exists s. reflexivity.
Qed.

Lemma weather_failure_sentinel_witness :
  exists msg,
    result (get_weather_forecast numeric_cod_world cfg_ok "Rome")
    = Ret [JObj [("time", JStr "");
                 ("description", JStr ("Parsing error: " ++ msg));
                 ("temp", JStr "")]].
Proof.
  apply (weather_failure_sentinel numeric_cod_world cfg_ok "Rome").
  right. eexists _, _. split; [reflexivity |]. split; [reflexivity |].
  vm_compute. discriminate.
Defined.

(** The number 200 and a refused connection, run. *)
Example weather_numeric_cod :
  result (get_weather_forecast numeric_cod_world cfg_ok "Rome")
  = Ret [JObj [("time", JStr "");
               ("description", JStr "Parsing error: API error: Unknown error");
               ("temp", JStr "")]]
  /\ result (get_weather_forecast offline cfg_ok "Rome")
     = Ret [JObj [("time", JStr "");
                  ("description", JStr "Parsing error: connection refused");
                  ("temp", JStr "")]].
Proof. split; vm_compute; reflexivity. Qed.

(** ** find_places_of_interest *)

Lemma omapM_Err_elem {A B} (f : A -> res B) (l : list A) x e :
  In x l -> f x = Err e -> exists e', omapM f l = Err e'.
Proof.
  induction l as [| y l IH]; simpl; [contradiction |].
  intros [-> | Hin] Hx.
  - rewrite Hx. simpl. eauto.
  - destruct (f y); simpl; [| eauto].
    destruct (IH Hin Hx) as (e' & ->). simpl. eauto.
Qed.

Lemma Forall2_nth_error_r {A B} (P : A -> B -> Prop) l k i y :
  Forall2 P l k -> nth_error k i = Some y ->
  exists x, nth_error l i = Some x /\ P x y.
Proof.
  intros Hall. revert i. induction Hall as [| x y' l k Hxy _ IH];
    intros [| i]; simpl; try discriminate.
  - intros Heq. injection Heq as <-. eauto.
  - apply IH.
Qed.

Section PlacesFacts.
Context `{PyLib}.
Variable w : World.

Lemma places_loop_result (items : list json) :
  result (places_loop items)
  = match omapM make_place items with
    | Ok places => Ret (map PlaceOfInterest.model_dump places)
    | Err e => Raise e
    end.
Proof.
  induction items as [| place rest IH]; [reflexivity |].
  cbn [places_loop omapM].
  rewrite result_bind, result_lift.
  destruct (make_place place) as [p | e]; cbn [rbind]; [| reflexivity].
  rewrite result_emit_bind, result_bind, IH.
  destruct (omapM make_place rest); reflexivity.
Qed.

Lemma places_result (cfg : Config) (city : string)
    (weather interests : option string) :
  truthy (GOOGLE_PLACES_API_KEY cfg) = true ->
  gmaps_Client w (fstr_opt (GOOGLE_PLACES_API_KEY cfg)) = None ->
  result (find_places_of_interest w cfg city weather interests)
  = match places_attempt w city interests with
    | Ok out => Ret out
    | Err _ => Ret []
    end.
Proof.
  intros Hkey Hclient. unfold find_places_of_interest, places_attempt.
  rewrite Hkey, !result_emit_bind, Hclient, result_try_except.
  rewrite result_emit_bind, result_bind, result_lift.
  assert (Hh : forall e : exn,
    result (if isinstance e [ApiError]
            then emit (Log ERROR ("Google Places API error: " ++ exn_str e));;
                 ret []
            else emit (Log ERROR ("Unexpected error: " ++ exn_str e));;
                 emit (Log ERROR (format_exc e));; ret []) = Ret (@nil json)).
  { intros e. destruct (isinstance e [ApiError]); reflexivity. }
  destruct (gmaps_places w (places_query city interests)) as [resp | e];
    cbn [rbind]; [| apply Hh].
  rewrite result_bind, result_lift.
  destruct (py_get resp "results" (JArr [])) as [results | e];
    cbn [rbind]; [| apply Hh].
  rewrite result_bind, result_lift.
  destruct (py_iter results) as [items | e]; cbn [rbind]; [| apply Hh].
  rewrite result_bind, places_loop_result.
  destruct (omapM make_place items) as [ps | e]; cbn [rbind]; [| apply Hh].
  rewrite result_emit_bind. reflexivity.
Qed.
Lemma model_dump_fields (p : PlaceOfInterest.t) :
  has_place_fields (PlaceOfInterest.model_dump p).
Proof. eexists. split; reflexivity. Qed.

Lemma make_place_dict (place : json) (p : PlaceOfInterest.t) :
  make_place place = Ok p -> exists kvs, place = JObj kvs.
Proof. destruct place; simpl; try discriminate. eauto. Qed.

End PlacesFacts.

Lemma mapM_validate_strs (l : list string) :
  mapM validate_str (map JStr l) = Some l.
Proof.
  induction l as [| x l IH]; [reflexivity |].
  cbn. cbn in IH. rewrite IH. reflexivity.
Qed.

(** A result with the documented field types passes validation, whatever
    the library instance. *)
Lemma make_place_documented `{PyLib} (place : list (string * json)) :
  documented_place place -> exists p, make_place (JObj place) = Ok p.
Proof.
  unfold documented_place, absent_or.
  intros (Hn & Hd & Hb & Ho & Hr & Hty & Hu).
  unfold make_place. cbn [py_get rbind]. unfold PlaceOfInterest.new.
  repeat match goal with
         | Hf : match assoc ?k place with _ => _ end |- _ =>
             destruct (assoc k place); [destruct Hf as (? & ->) | clear Hf]
         end;
    cbn;
    rewrite ?lax_float_JFloat, ?lax_int_JInt, ?mapM_validate_strs;
    cbn; eauto.
Qed.

(** C2: with the key set and the client constructed, an exception raised by
    the places call makes find_places_of_interest return the empty list; it
    raises nothing. *)
Theorem places_error_returns_empty `{PyLib} (w : World) (cfg : Config)
    (city : string) (weather interests : option string) (e : exn) :
  truthy (GOOGLE_PLACES_API_KEY cfg) = true ->
  gmaps_Client w (fstr_opt (GOOGLE_PLACES_API_KEY cfg)) = None ->
  gmaps_places w (places_query city interests) = Err e ->
  result (find_places_of_interest w cfg city weather interests) = Ret [].
Proof.
  intros Hkey Hclient Herr. rewrite (places_result w cfg city _ _ Hkey Hclient).
  unfold places_attempt. rewrite Herr. reflexivity.
Qed.

Lemma places_error_returns_empty_witness :
  result (find_places_of_interest api_error_world cfg_ok "Rome" None (Some "museums"))
  = Ret [].
Proof.
  apply (places_error_returns_empty api_error_world cfg_ok "Rome" None
           (Some "museums")
           (Exn ApiError "REQUEST_DENIED (The provided API key is invalid.)"));
    reflexivity.
Defined.

Lemma documented_places_validate `{PyLib} (rs : list json) :
  Forall (fun r => exists place, r = JObj place /\ documented_place place) rs ->
  exists ps, Forall2 (fun r p => make_place r = Ok p) rs ps.
Proof.
  induction 1 as [| r rs (place & -> & Hdoc) _ (ps & IH)].
  - exists []. constructor.
  - destruct (make_place_documented place Hdoc) as (p & Hp).
    exists (p :: ps). constructor; assumption.
Qed.

(** C6, as the code has it: when the places call returns a dict whose
    results are a list, and every result passes the validation of
    PlaceOfInterest, the function returns one dumped record per result, in
    the order of the results, each with the seven fields; this is so in
    particular when every result is a dict whose present fields have the
    documented types.  When some result fails validation (or is not a
    dict), it returns the empty list. *)
Theorem places_one_record_per_valid_result `{PyLib} (w : World) (cfg : Config)
    (city : string) (weather interests : option string)
    (resp : json) (rs : list json) :
  truthy (GOOGLE_PLACES_API_KEY cfg) = true ->
  gmaps_Client w (fstr_opt (GOOGLE_PLACES_API_KEY cfg)) = None ->
  gmaps_places w (places_query city interests) = Ok resp ->
  py_get resp "results" (JArr []) = Ok (JArr rs) ->
  (forall ps, Forall2 (fun r p => make_place r = Ok p) rs ps ->
     result (find_places_of_interest w cfg city weather interests)
     = Ret (map PlaceOfInterest.model_dump ps)
     /\ one_record_per_result rs (map PlaceOfInterest.model_dump ps)) /\
  (Forall (fun r => exists place, r = JObj place /\ documented_place place) rs ->
     exists out,
       result (find_places_of_interest w cfg city weather interests) = Ret out
       /\ one_record_per_result rs out) /\
  (forall r e, In r rs -> make_place r = Err e ->
     result (find_places_of_interest w cfg city weather interests) = Ret []).
Proof.
  intros Hkey Hclient Hresp Hresults.
  rewrite (places_result w cfg city _ _ Hkey Hclient).
  unfold places_attempt. rewrite Hresp. cbn [rbind]. rewrite Hresults.
  cbn [rbind py_iter].
  assert (Hvalid : forall ps, Forall2 (fun r p => make_place r = Ok p) rs ps ->
    match rbind (omapM make_place rs)
            (fun places => Ok (map PlaceOfInterest.model_dump places)) with
    | Ok out => Ret out
    | Err _ => Ret []
    end = Ret (map PlaceOfInterest.model_dump ps)
    /\ one_record_per_result rs (map PlaceOfInterest.model_dump ps)).
  { intros ps Hall. apply omapM_Ok in Hall as Hmap. rewrite Hmap.
    split; [reflexivity |]. split.
    - rewrite length_map. symmetry. apply (Forall2_length _ _ _ Hall).
    - apply List.Forall_forall. intros d Hd.
      apply in_map_iff in Hd as (p & <- & _). apply model_dump_fields. }
  split; [exact Hvalid |]. split.
  - intros Hdoc. destruct (documented_places_validate rs Hdoc) as (ps & Hall).
    exists (map PlaceOfInterest.model_dump ps). apply Hvalid, Hall.
  - intros r e Hin Herr.
    destruct (omapM_Err_elem make_place rs r e Hin Herr) as (e' & ->).
    reflexivity.
Qed.

Lemma places_one_record_per_valid_result_witness :
  (forall ps, Forall2 (fun r p => make_place r = Ok p) [colosseum; JObj []] ps ->
     result (find_places_of_interest two_places_world cfg_ok "Rome" None None)
     = Ret (map PlaceOfInterest.model_dump ps)
     /\ one_record_per_result [colosseum; JObj []]
          (map PlaceOfInterest.model_dump ps)) /\
  (Forall (fun r => exists place, r = JObj place /\ documented_place place)
     [colosseum; JObj []] ->
     exists out,
       result (find_places_of_interest two_places_world cfg_ok "Rome" None None)
       = Ret out
       /\ one_record_per_result [colosseum; JObj []] out) /\
  (forall r e, In r [colosseum; JObj []] -> make_place r = Err e ->
     result (find_places_of_interest two_places_world cfg_ok "Rome" None None)
     = Ret []).
Proof.
  apply (places_one_record_per_valid_result two_places_world cfg_ok "Rome"
           None None
           (JObj [("results", JArr [colosseum; JObj []]); ("status", JStr "OK")]));
    reflexivity.
Defined.

(** The two results, run: the documented fields are copied, the bare result
    gets the three placeholders and four nulls. *)
Example places_two_results :
  result (find_places_of_interest two_places_world cfg_ok "Rome" None None)
  = Ret [colosseum_record; bare_record].
Proof. vm_compute. reflexivity. Qed.

(** C6 as stated fails: the places call succeeds with one result whose
    name is null; the record does not validate and the function returns the
    empty list, not one record. *)
Lemma places_null_name_counterexample :
  gmaps_places null_name_world (places_query "Rome" None)
  = Ok (JObj [("html_attributions", JArr []);
              ("results", JArr [null_name_place]);
              ("status", JStr "OK")])
  /\ result (find_places_of_interest null_name_world cfg_ok "Rome" None None)
     = Ret []
  /\ ~ one_record_per_result [null_name_place] [].
Proof.
  split; [reflexivity |]. split; [vm_compute; reflexivity |].
  intros [Hlen _]. discriminate.
Qed.

(** ** Placeholders *)

Lemma make_place_defaults `{PyLib} (place : list (string * json))
    (p : PlaceOfInterest.t) :
  make_place (JObj place) = Ok p ->
  (assoc "name" place = None -> PlaceOfInterest.name p = "No name provided") /\
  (assoc "formatted_address" place = None ->
     PlaceOfInterest.description p = "No address provided") /\
  (assoc "business_status" place = None ->
     PlaceOfInterest.business_status p = Some "No business status provided") /\
  (assoc "opening_hours" place = None -> PlaceOfInterest.opening_hours p = None) /\
  (assoc "rating" place = None -> PlaceOfInterest.rating p = None) /\
  (assoc "types" place = None -> PlaceOfInterest.types p = None) /\
  (assoc "user_ratings_total" place = None ->
     PlaceOfInterest.user_ratings_total p = None).
Proof.
  unfold make_place. cbn [py_get rbind]. unfold PlaceOfInterest.new.
  destruct (validate_str (default (JStr "No name provided") (assoc "name" place)))
    as [n |] eqn:Hn; [| discriminate].
  destruct (validate_str (default (JStr "No address provided")
                            (assoc "formatted_address" place)))
    as [d |] eqn:Hd; [| discriminate].
  destruct (validate_optional validate_str
              (default (JStr "No business status provided")
                 (assoc "business_status" place)))
    as [b |] eqn:Hb; [| discriminate].
  destruct (validate_optional validate_dict
              (default JNull (assoc "opening_hours" place)))
    as [o |] eqn:Ho; [| discriminate].
  destruct (validate_optional lax_float (default JNull (assoc "rating" place)))
    as [r |] eqn:Hr; [| discriminate].
  destruct (validate_optional validate_list_str
              (default JNull (assoc "types" place)))
    as [ty |] eqn:Hty; [| discriminate].
  destruct (validate_optional lax_int
              (default JNull (assoc "user_ratings_total" place)))
    as [u |] eqn:Hu; [| discriminate].
  intros Heq. injection Heq as <-. cbn.
  repeat split; intros Hnone.
  - rewrite Hnone in Hn. cbn in Hn. congruence.
  - rewrite Hnone in Hd. cbn in Hd. congruence.
  - rewrite Hnone in Hb. cbn in Hb. congruence.
  - rewrite Hnone in Ho. cbn in Ho. congruence.
  - rewrite Hnone in Hr. cbn in Hr. congruence.
  - rewrite Hnone in Hty. cbn in Hty. congruence.
  - rewrite Hnone in Hu. cbn in Hu. congruence.
Qed.

(** C10: every record find_places_of_interest returns was built from the
    API result at the same position, a dict; where that dict has no name,
    formatted_address or business_status the record carries the fixed
    placeholder string, and where it has no opening_hours, rating, types or
    user_ratings_total the record carries null. *)
Theorem places_placeholders `{PyLib} (w : World) (cfg : Config) (city : string)
    (weather interests : option string) (out : list json) (i : nat)
    (record : json) :
  result (find_places_of_interest w cfg city weather interests) = Ret out ->
  nth_error out i = Some record ->
  exists resp results items place fields,
    gmaps_places w (places_query city interests) = Ok resp /\
    py_get resp "results" (JArr []) = Ok results /\
    py_iter results = Ok items /\
    nth_error items i = Some (JObj place) /\
    record = JObj fields /\
    map fst fields = place_fields /\
    (assoc "name" place = None ->
       assoc "name" fields = Some (JStr "No name provided")) /\
    (assoc "formatted_address" place = None ->
       assoc "description" fields = Some (JStr "No address provided")) /\
    (assoc "business_status" place = None ->
       assoc "business_status" fields = Some (JStr "No business status provided")) /\
    (assoc "opening_hours" place = None ->
       assoc "opening_hours" fields = Some JNull) /\
    (assoc "rating" place = None -> assoc "rating" fields = Some JNull) /\
    (assoc "types" place = None -> assoc "types" fields = Some JNull) /\
    (assoc "user_ratings_total" place = None ->
       assoc "user_ratings_total" fields = Some JNull).
Proof.
  intros Hres Hnth.
  assert (Hatt : places_attempt w city interests = Ok out).
  { unfold find_places_of_interest in Hres.
    destruct (truthy (GOOGLE_PLACES_API_KEY cfg)) eqn:Hkey; [| discriminate].
    destruct (gmaps_Client w (fstr_opt (GOOGLE_PLACES_API_KEY cfg))) eqn:Hclient.
    { rewrite !result_emit_bind in Hres. discriminate. }
    pose proof (places_result w cfg city weather interests Hkey Hclient) as Hp.
    unfold find_places_of_interest in Hp. rewrite Hkey, Hclient in Hp.
    rewrite Hp in Hres.
    destruct (places_attempt w city interests) as [out' | e]; [congruence |].
    injection Hres as <-. destruct i; discriminate. }
  unfold places_attempt in Hatt.
  apply rbind_Ok in Hatt as (resp & Hresp & Hatt).
  apply rbind_Ok in Hatt as (results & Hresults & Hatt).
  apply rbind_Ok in Hatt as (items & Hitems & Hatt).
  apply rbind_Ok in Hatt as (ps & Hps & Hatt). injection Hatt as <-.
  apply omapM_Ok in Hps.
  rewrite nth_error_map in Hnth.
  destruct (nth_error ps i) as [p |] eqn:Hp; [| discriminate].
  injection Hnth as <-.
  destruct (Forall2_nth_error_r _ _ _ _ _ Hps Hp) as (pl & Hpl & Hmk).
  destruct (make_place_dict pl p Hmk) as (place & ->).
  destruct (make_place_defaults place p Hmk)
    as (Hn & Hd & Hb & Ho & Hr & Hty & Hu).
  eexists resp, results, items, place, _.
  split; [exact Hresp |]. split; [exact Hresults |]. split; [exact Hitems |].
  split; [exact Hpl |]. split; [reflexivity |]. split; [reflexivity |].
  repeat split; intros Hnone; cbn.
  - rewrite (Hn Hnone). reflexivity.
  - rewrite (Hd Hnone). reflexivity.
  - rewrite (Hb Hnone). reflexivity.
  - rewrite (Ho Hnone). reflexivity.
  - rewrite (Hr Hnone). reflexivity.
  - rewrite (Hty Hnone). reflexivity.
  - rewrite (Hu Hnone). reflexivity.
Qed.

Lemma places_placeholders_witness :
  exists resp results items place fields,
    gmaps_places two_places_world (places_query "Rome" None) = Ok resp /\
    py_get resp "results" (JArr []) = Ok results /\
    py_iter results = Ok items /\
    nth_error items 1 = Some (JObj place) /\
    bare_record = JObj fields /\
    map fst fields = place_fields /\
    (assoc "name" place = None ->
       assoc "name" fields = Some (JStr "No name provided")) /\
    (assoc "formatted_address" place = None ->
       assoc "description" fields = Some (JStr "No address provided")) /\
    (assoc "business_status" place = None ->
       assoc "business_status" fields = Some (JStr "No business status provided")) /\
    (assoc "opening_hours" place = None ->
       assoc "opening_hours" fields = Some JNull) /\
    (assoc "rating" place = None -> assoc "rating" fields = Some JNull) /\
    (assoc "types" place = None -> assoc "types" fields = Some JNull) /\
    (assoc "user_ratings_total" place = None ->
       assoc "user_ratings_total" fields = Some JNull).
Proof.
  apply (places_placeholders two_places_world cfg_ok "Rome" None None
           [colosseum_record; bare_record] 1 bare_record).
  - vm_compute. reflexivity.
  - reflexivity.
Defined.

(** * Further properties of the code *)

(** ** Traces *)

Lemma trace_bind {A B} (m : M A) (k : A -> M B) :
  trace (bind m k)
  = trace m ++ match result m with
               | Ret a => trace (k a)
               | _ => []
               end.
Proof.
  destruct m as [t [a | e | c]]; simpl; rewrite ?app_nil_r; try reflexivity.
  destruct (k a); reflexivity.
Qed.

Lemma trace_try_except {A} (m : M A) (h : exn -> M A) :
  trace (try_except m h)
  = trace m ++ match result m with
               | Raise e => trace (h e)
               | _ => []
               end.
Proof.
  destruct m as [t [a | e | c]]; simpl; rewrite ?app_nil_r; try reflexivity.
  destruct (h e); reflexivity.
Qed.

Lemma trace_lift {A} (r : res A) : trace (lift r) = [].
Proof. destruct r; reflexivity. Qed.

Lemma program_started `{PyLib} (w : World) (env : gmap string string)
    (stdin : option string) :
  required_set env = true ->
  program w env stdin
  = (SetTracingKey (env !! "OPENAI_API_KEY") :: trace (main w stdin),
     result (main w stdin)).
Proof.
  intros Hset. unfold program. rewrite (startup_ok env Hset).
  destruct (main w stdin) as [t o]. reflexivity.
Qed.

Lemma program_stopped `{PyLib} (w : World) (env : gmap string string)
    (stdin : option string) :
  required_set env = false ->
  exists key,
    program w env stdin
    = ([SetTracingKey (env !! "OPENAI_API_KEY");
        Log ERROR ("Missing required environment variable: " ++ key)],
       Raise (Exn RuntimeError ("Missing environment variable: " ++ key))).
Proof.
  intros Hset. destruct (startup_missing env Hset) as (key & _ & _ & Hrun).
  exists key. unfold program. rewrite Hrun. reflexivity.
Qed.

(** The main block, case by case. *)
Lemma main_cases `{PyLib} (w : World) (stdin : option string) :
  main w stdin
  = match stdin with
    | None => ([Prompt input_prompt], Raise (Exn EOFError "EOF when reading a line"))
    | Some line =>
        if String.eqb (strip line) "" then
          ([Prompt input_prompt; Stdout msg_empty_city], Exit 1)
        else
          match run_travel_advisor w (make_prompt (strip line)) with
          | Ok final_output =>
              (main_started line ++ [Stdout final_output], Ret tt)
          | Err e =>
              (main_started line
               ++ (if isinstance e [InputGuardrailTripwireTriggered]
                      || isinstance e [OutputGuardrailTripwireTriggered]
                   then []
                   else [LogException
                           "Unexpected error during TravelAdvisor execution" e])
               ++ [Stdout (failure_message e)], Ret tt)
          end
    end.
Proof.
  destruct stdin as [line |]; [| reflexivity].
  destruct (String.eqb (strip line) "") eqn:Hs.
  - apply String.eqb_eq in Hs. apply (main_empty w line Hs).
  - apply String.eqb_neq in Hs.
    destruct (main_run w line Hs) as (rest & o & Hmain & Hrest).
    rewrite Hmain. unfold failure_message.
    destruct (run_travel_advisor w (make_prompt (strip line))) as [out | e].
    + destruct Hrest as [-> ->]. reflexivity.
    + destruct Hrest as [-> ->].
      destruct (isinstance e [InputGuardrailTripwireTriggered]);
        [reflexivity |].
      destruct (isinstance e [OutputGuardrailTripwireTriggered]); reflexivity.
Qed.

(** X1: the agent is run at most once, and only when all three variables
    are set, a line was read and the stripped line is not empty; the prompt
    it gets is the one built from the stripped line. *)
Theorem program_agent_runs `{PyLib} (w : World) (env : gmap string string)
    (stdin : option string) :
  List.filter is_agent_run (trace (program w env stdin))
  = if required_set env then
      match stdin with
      | Some line =>
          if String.eqb (strip line) "" then []
          else [AgentRun "TravelAdvisor" (make_prompt (strip line))]
      | None => []
      end
    else [].
Proof.
  destruct (required_set env) eqn:Hset.
  - rewrite (program_started w env stdin Hset), main_cases.
    destruct stdin as [line |]; [| reflexivity].
    destruct (String.eqb (strip line) ""); [reflexivity |].
    destruct (run_travel_advisor w (make_prompt (strip line))) as [out | e];
      [reflexivity |].
    destruct (isinstance e [InputGuardrailTripwireTriggered]
              || isinstance e [OutputGuardrailTripwireTriggered]); reflexivity.
  - destruct (program_stopped w env stdin Hset) as (key & ->). reflexivity.
Qed.

(** X2: the process ends with status 0 exactly when the start-up check
    passed, a line was read and its stripped form is not empty, whether the
    agent run succeeded or raised; in every other case the status is 1. *)
Theorem program_exit_status `{PyLib} (w : World) (env : gmap string string)
    (stdin : option string) :
  exit_status (result (program w env stdin))
  = if required_set env
       && match stdin with
          | Some line => negb (String.eqb (strip line) "")
          | None => false
          end
    then 0%Z else 1%Z.
Proof.
  destruct (required_set env) eqn:Hset.
  - rewrite (program_started w env stdin Hset), main_cases.
    destruct stdin as [line |]; [| reflexivity].
    destruct (String.eqb (strip line) ""); [reflexivity |].
    destruct (run_travel_advisor w (make_prompt (strip line))); reflexivity.
  - destruct (program_stopped w env stdin Hset) as (key & ->). reflexivity.
Qed.


(** X4: the start-up check reports the first variable, in the order
    OPENAI_API_KEY, GOOGLE_PLACES_API_KEY, WEATHER_API_KEY, that is absent
    or empty, and stops there. *)
Theorem startup_names_first_missing `{PyLib} (env : gmap string string)
    (key : string) :
  first_missing env = Some key ->
  startup env
  = ([SetTracingKey (env !! "OPENAI_API_KEY");
      Log ERROR ("Missing required environment variable: " ++ key)],
     Raise (Exn RuntimeError ("Missing environment variable: " ++ key))).
Proof.
  unfold first_missing, required_keys, startup, getenv. simpl.
  destruct (truthy (env !! "OPENAI_API_KEY")); simpl.
  - destruct (truthy (env !! "GOOGLE_PLACES_API_KEY")); simpl.
    + destruct (truthy (env !! "WEATHER_API_KEY")); simpl; [discriminate |].
      intros Heq. injection Heq as <-. reflexivity.
    + intros Heq. injection Heq as <-. reflexivity.
  - intros Heq. injection Heq as <-. reflexivity.
Qed.

Lemma startup_names_first_missing_witness :
  startup env_two_missing
  = ([SetTracingKey (env_two_missing !! "OPENAI_API_KEY");
      Log ERROR ("Missing required environment variable: " ++ "GOOGLE_PLACES_API_KEY")],
     Raise (Exn RuntimeError ("Missing environment variable: " ++ "GOOGLE_PLACES_API_KEY"))).
Proof.
  apply (startup_names_first_missing env_two_missing "GOOGLE_PLACES_API_KEY").
  vm_compute. reflexivity.
Defined.

(** X5: a configuration that start-up hands on has all three credentials
    set and non-empty, each equal to the variable it was read from. *)
Theorem startup_config_complete `{PyLib} (env : gmap string string)
    (cfg : Config) :
  result (startup env) = Ret cfg ->
  truthy (OPENAI_API_KEY cfg) = true /\
  truthy (GOOGLE_PLACES_API_KEY cfg) = true /\
  truthy (WEATHER_API_KEY cfg) = true /\
  OPENAI_API_KEY cfg = env !! "OPENAI_API_KEY" /\
  GOOGLE_PLACES_API_KEY cfg = env !! "GOOGLE_PLACES_API_KEY" /\
  WEATHER_API_KEY cfg = env !! "WEATHER_API_KEY".
Proof.
  destruct (required_set env) eqn:Hset.
  - rewrite (startup_ok env Hset). intros Heq. injection Heq as <-.
    unfold required_set, required_keys, getenv in Hset. simpl in Hset.
    rewrite andb_true_r in Hset. apply andb_prop in Hset as [H1 Hset].
    apply andb_prop in Hset as [H2 H3]. simpl. unfold getenv. auto 7.
  - destruct (startup_missing env Hset) as (key & _ & _ & ->). discriminate.
Qed.

Lemma startup_config_complete_witness :
  truthy (OPENAI_API_KEY cfg_ok) = true /\
  truthy (GOOGLE_PLACES_API_KEY cfg_ok) = true /\
  truthy (WEATHER_API_KEY cfg_ok) = true /\
  OPENAI_API_KEY cfg_ok = env_ok !! "OPENAI_API_KEY" /\
  GOOGLE_PLACES_API_KEY cfg_ok = env_ok !! "GOOGLE_PLACES_API_KEY" /\
  WEATHER_API_KEY cfg_ok = env_ok !! "WEATHER_API_KEY".
Proof.
  apply (startup_config_complete env_ok cfg_ok). vm_compute. reflexivity.
Defined.

(** ** find_places_of_interest: calls, exceptions, values *)

Lemma trace_emit_bind {B} (ev : event) (k : unit -> M B) :
  trace (bind (emit ev) k) = ev :: trace (k tt).
Proof. unfold bind, emit. destruct (k tt); reflexivity. Qed.

(** A computation that makes no network call. *)
Lemma quiet_bind {A B} (m : M A) (k : A -> M B) :
  List.filter is_network (trace m) = [] ->
  (forall a, List.filter is_network (trace (k a)) = []) ->
  List.filter is_network (trace (bind m k)) = [].
Proof.
  intros Hm Hk. rewrite trace_bind, List.filter_app, Hm.
  destruct (result m); [apply Hk | reflexivity | reflexivity].
Qed.

Lemma quiet_log_bind {B} (lvl : level) (msg : string) (k : unit -> M B) :
  List.filter is_network (trace (k tt)) = [] ->
  List.filter is_network (trace (bind (emit (Log lvl msg)) k)) = [].
Proof. intros Hk. rewrite trace_emit_bind. exact Hk. Qed.

Lemma places_loop_quiet `{PyLib} (items : list json) :
  List.filter is_network (trace (places_loop items)) = [].
Proof.
  induction items as [| place rest IH]; [reflexivity |].
  cbn [places_loop]. apply quiet_bind; [rewrite trace_lift; reflexivity |].
  intros p. apply quiet_log_bind. apply quiet_bind; [exact IH |].
  intros l. reflexivity.
Qed.

(** X6: find_places_of_interest queries the places API at most once: once,
    with the query built from city and interests, when the key is set and
    the client accepts it, and not at all otherwise.  It makes no other
    network call. *)
Theorem places_network_calls `{PyLib} (w : World) (cfg : Config)
    (city : string) (weather interests : option string) :
  List.filter is_network
    (trace (find_places_of_interest w cfg city weather interests))
  = if truthy (GOOGLE_PLACES_API_KEY cfg) then
      match gmaps_Client w (fstr_opt (GOOGLE_PLACES_API_KEY cfg)) with
      | Some _ => []
      | None => [PlacesQuery (places_query city interests)]
      end
    else [].
Proof.
  unfold find_places_of_interest.
  destruct (truthy (GOOGLE_PLACES_API_KEY cfg)); [| reflexivity].
  rewrite !trace_emit_bind. cbn [List.filter is_network].
  destruct (gmaps_Client w (fstr_opt (GOOGLE_PLACES_API_KEY cfg)));
    [reflexivity |].
  rewrite trace_try_except, List.filter_app, trace_emit_bind.
  cbn [List.filter is_network].
  assert (Hbody : List.filter is_network
            (trace (response <- lift (gmaps_places w (places_query city interests));;
                    results <- lift (py_get response "results" (JArr []));;
                    items <- lift (py_iter results);;
                    places_list <- places_loop items;;
                    emit (Log INFO ("Found " ++ pretty (length places_list)
                                    ++ " places of interest in " ++ city ++ "."));;
                    ret places_list)) = []).
  { apply quiet_bind; [rewrite trace_lift; reflexivity | intros response].
    apply quiet_bind; [rewrite trace_lift; reflexivity | intros results].
    apply quiet_bind; [rewrite trace_lift; reflexivity | intros items].
    apply quiet_bind; [apply places_loop_quiet | intros places_list].
    reflexivity. }
  rewrite Hbody. cbn [app].
  match goal with
  | |- _ :: List.filter _ (match ?o with _ => _ end) = _ => destruct o
  end; try reflexivity.
  destruct (isinstance e [ApiError]); reflexivity.
Qed.

(** X7: the only exception find_places_of_interest lets through is the
    ValueError of the two checks made before the [try]: the credential is
    missing, or the client rejects it.  No network call has been made then. *)
Theorem places_raises_only_ValueError `{PyLib} (w : World) (cfg : Config)
    (city : string) (weather interests : option string) (e : exn) :
  result (find_places_of_interest w cfg city weather interests) = Raise e ->
  exn_cls e = ValueError /\
  (truthy (GOOGLE_PLACES_API_KEY cfg) = false
   \/ gmaps_Client w (fstr_opt (GOOGLE_PLACES_API_KEY cfg)) = Some (exn_str e)) /\
  List.filter is_network
    (trace (find_places_of_interest w cfg city weather interests)) = [].
Proof.
  intros Hres.
  destruct (truthy (GOOGLE_PLACES_API_KEY cfg)) eqn:Hkey.
  - destruct (gmaps_Client w (fstr_opt (GOOGLE_PLACES_API_KEY cfg)))
      as [msg |] eqn:Hclient.
    + unfold find_places_of_interest in *. rewrite Hkey, Hclient in *.
      rewrite !result_emit_bind in Hres. injection Hres as <-.
      split; [reflexivity |]. split; [right; reflexivity | reflexivity].
    + rewrite (places_result w cfg city _ _ Hkey Hclient) in Hres.
      destruct (places_attempt w city interests); discriminate.
  - unfold find_places_of_interest in *. rewrite Hkey in *.
    injection Hres as <-. split; [reflexivity |]. split; [left |]; reflexivity.
Qed.

Lemma places_raises_only_ValueError_witness :
  exn_cls (Exn ValueError "GOOGLE_PLACES_API_KEY environment variable not set.")
  = ValueError /\
  (truthy (GOOGLE_PLACES_API_KEY cfg_no_places) = false
   \/ gmaps_Client two_places_world (fstr_opt (GOOGLE_PLACES_API_KEY cfg_no_places))
      = Some (exn_str (Exn ValueError
                         "GOOGLE_PLACES_API_KEY environment variable not set."))) /\
  List.filter is_network
    (trace (find_places_of_interest two_places_world cfg_no_places "Rome" None None))
  = [].
Proof.
  apply (places_raises_only_ValueError two_places_world cfg_no_places "Rome"
           None None). reflexivity.
Defined.

(** X8: once the key is set and the client is constructed,
    find_places_of_interest returns a list whatever the places call does:
    the list the [try] block computed, or the empty list when the block
    raised. *)
Theorem places_always_returns `{PyLib} (w : World) (cfg : Config)
    (city : string) (weather interests : option string) :
  truthy (GOOGLE_PLACES_API_KEY cfg) = true ->
  gmaps_Client w (fstr_opt (GOOGLE_PLACES_API_KEY cfg)) = None ->
  exists out,
    result (find_places_of_interest w cfg city weather interests) = Ret out /\
    (places_attempt w city interests = Ok out
     \/ (out = [] /\ exists e, places_attempt w city interests = Err e)).
Proof.
  intros Hkey Hclient. rewrite (places_result w cfg city _ _ Hkey Hclient).
  destruct (places_attempt w city interests) as [out | e]; eauto 6.
Qed.

Lemma places_always_returns_witness :
  exists out,
    result (find_places_of_interest numeric_name_world cfg_ok "Rome" None None)
    = Ret out /\
    (places_attempt numeric_name_world "Rome" None = Ok out
     \/ (out = [] /\ exists e, places_attempt numeric_name_world "Rome" None = Err e)).
Proof.
  apply (places_always_returns numeric_name_world cfg_ok "Rome" None None);
    reflexivity.
Defined.

Lemma make_place_unusable `{PyLib} (r : json) :
  unusable_result r -> exists e, make_place r = Err e.
Proof.
  intros [Hnd | (place & v & -> & Hfield & Hv)].
  - destruct r; simpl; eauto. exfalso. apply (Hnd kvs). reflexivity.
  - unfold make_place. cbn [py_get rbind]. unfold PlaceOfInterest.new.
    destruct Hfield as [Hf | Hf]; rewrite Hf; cbn [default from_option id];
      rewrite Hv.
    + eauto.
    + destruct (validate_str (default (JStr "No name provided")
                                (assoc "name" place))); eauto.
Qed.

(** X9: one unusable result empties the answer.  When the places call
    returns a dict whose results are a list, and some result is not a dict
    or has a name or formatted_address that is present but not a string,
    find_places_of_interest returns the empty list, whatever the other
    results are. *)
Theorem places_unusable_result_empties `{PyLib} (w : World) (cfg : Config)
    (city : string) (weather interests : option string)
    (resp : json) (rs : list json) (r : json) :
  truthy (GOOGLE_PLACES_API_KEY cfg) = true ->
  gmaps_Client w (fstr_opt (GOOGLE_PLACES_API_KEY cfg)) = None ->
  gmaps_places w (places_query city interests) = Ok resp ->
  py_get resp "results" (JArr []) = Ok (JArr rs) ->
  In r rs ->
  unusable_result r ->
  result (find_places_of_interest w cfg city weather interests) = Ret [].
Proof.
  intros Hkey Hclient Hresp Hresults Hin Hbad.
  rewrite (places_result w cfg city _ _ Hkey Hclient).
  unfold places_attempt. rewrite Hresp. cbn [rbind]. rewrite Hresults.
  cbn [rbind py_iter].
  destruct (make_place_unusable r Hbad) as (e & He).
  destruct (omapM_Err_elem make_place rs r e Hin He) as (e' & ->).
  reflexivity.
Qed.

Lemma places_unusable_result_empties_witness :
  result (find_places_of_interest numeric_name_world cfg_ok "Rome" None None)
  = Ret [].
Proof.
  apply (places_unusable_result_empties numeric_name_world cfg_ok "Rome" None None
           (JObj [("results", JArr [colosseum; JObj [("name", JInt 7)]]);
                  ("status", JStr "OK")])
           [colosseum; JObj [("name", JInt 7)]]
           (JObj [("name", JInt 7)])); try reflexivity.
  - simpl. auto.
  - right. exists [("name", JInt 7)], (JInt 7).
    split; [reflexivity |]. split; [left; reflexivity | reflexivity].
Defined.

(** ** What validation keeps *)

Lemma validate_str_inv (v : json) (s : string) :
  validate_str v = Some s -> JStr s = v.
Proof. destruct v; simpl; congruence. Qed.

Lemma validate_dict_inv (v : json) (kvs : list (string * json)) :
  validate_dict v = Some kvs -> JObj kvs = v.
Proof. destruct v; simpl; congruence. Qed.

Lemma validate_list_str_inv (v : json) (l : list string) :
  validate_list_str v = Some l -> JArr (map JStr l) = v.
Proof.
  destruct v as [| | | | | items |]; simpl; try discriminate.
  intros Hm. apply mapM_Some_1 in Hm. f_equal.
  induction Hm as [| x y xs ys Hxy _ IH]; [reflexivity |].
  simpl. rewrite IH, (validate_str_inv x y Hxy). reflexivity.
Qed.

Lemma validate_optional_inv {A} (f : json -> option A) (d : A -> json)
    (v : json) (o : option A) :
  (forall x a, f x = Some a -> d a = x) ->
  validate_optional f v = Some o -> dump_optional d o = v.
Proof.
  intros Hf. destruct v; simpl;
    try (destruct (f _) as [a |] eqn:Hv; simpl; [| discriminate];
         intros Heq; injection Heq as <-; simpl; apply Hf, Hv).
  intros Heq. injection Heq as <-. reflexivity.
Qed.

(** X10: a result that passes validation is returned as the API gave it.
    The record's name, description, business_status, opening_hours and
    types are the values found under name, formatted_address,
    business_status, opening_hours and types (the placeholder or null where
    the key is absent); a rating that is a float and a user_ratings_total
    that is an integer are returned unchanged. *)
Theorem make_place_copies `{PyLib} (place : list (string * json))
    (p : PlaceOfInterest.t) :
  make_place (JObj place) = Ok p ->
  exists rating total,
    PlaceOfInterest.model_dump p
    = JObj [("name", default (JStr "No name provided") (assoc "name" place));
            ("description",
             default (JStr "No address provided") (assoc "formatted_address" place));
            ("business_status",
             default (JStr "No business status provided")
               (assoc "business_status" place));
            ("opening_hours", default JNull (assoc "opening_hours" place));
            ("rating", rating);
            ("types", default JNull (assoc "types" place));
            ("user_ratings_total", total)] /\
    (forall f, assoc "rating" place = Some (JFloat f) -> rating = JFloat f) /\
    (forall n, assoc "user_ratings_total" place = Some (JInt n) -> total = JInt n).
Proof.
  unfold make_place. cbn [py_get rbind]. unfold PlaceOfInterest.new.
  destruct (validate_str (default (JStr "No name provided") (assoc "name" place)))
    as [n |] eqn:Hn; [| discriminate].
  destruct (validate_str (default (JStr "No address provided")
                            (assoc "formatted_address" place)))
    as [d |] eqn:Hd; [| discriminate].
  destruct (validate_optional validate_str
              (default (JStr "No business status provided")
                 (assoc "business_status" place)))
    as [b |] eqn:Hb; [| discriminate].
  destruct (validate_optional validate_dict
              (default JNull (assoc "opening_hours" place)))
    as [o |] eqn:Ho; [| discriminate].
  destruct (validate_optional lax_float (default JNull (assoc "rating" place)))
    as [r |] eqn:Hr; [| discriminate].
  destruct (validate_optional validate_list_str
              (default JNull (assoc "types" place)))
    as [ty |] eqn:Hty; [| discriminate].
  destruct (validate_optional lax_int
              (default JNull (assoc "user_ratings_total" place)))
    as [u |] eqn:Hu; [| discriminate].
  intros Heq. injection Heq as <-.
  exists (dump_optional JFloat r), (dump_optional JInt u).
  unfold PlaceOfInterest.model_dump. cbn [PlaceOfInterest.name
    PlaceOfInterest.description PlaceOfInterest.business_status
    PlaceOfInterest.opening_hours PlaceOfInterest.rating PlaceOfInterest.types
    PlaceOfInterest.user_ratings_total].
  rewrite (validate_str_inv _ _ Hn), (validate_str_inv _ _ Hd).
  rewrite (validate_optional_inv validate_str JStr _ _ validate_str_inv Hb).
  rewrite (validate_optional_inv validate_dict JObj _ _ validate_dict_inv Ho).
  rewrite (validate_optional_inv validate_list_str _ _ _ validate_list_str_inv Hty).
  split; [reflexivity |]. split.
  - intros f Hf. rewrite Hf in Hr. cbn in Hr. rewrite lax_float_JFloat in Hr.
    cbn in Hr. injection Hr as <-. reflexivity.
  - intros k Hk. rewrite Hk in Hu. cbn in Hu. rewrite lax_int_JInt in Hu.
    cbn in Hu. injection Hu as <-. reflexivity.
Qed.

Lemma make_place_copies_witness :
  exists rating total,
    colosseum_record
    = JObj [("name", JStr "Colosseum");
            ("description", JStr "Piazza del Colosseo, 1, 00184 Roma RM, Italy");
            ("business_status", JStr "OPERATIONAL");
            ("opening_hours", JObj [("open_now", JBool true)]);
            ("rating", rating);
            ("types", JArr [JStr "tourist_attraction"; JStr "point_of_interest"]);
            ("user_ratings_total", total)] /\
    (forall f, Some (JFloat 4.5) = Some (JFloat f) -> rating = JFloat f) /\
    (forall n, Some (JInt 400000) = Some (JInt n) -> total = JInt n).
Proof.
  exact (make_place_copies
           [("business_status", JStr "OPERATIONAL");
            ("formatted_address",
             JStr "Piazza del Colosseo, 1, 00184 Roma RM, Italy");
            ("name", JStr "Colosseum");
            ("opening_hours", JObj [("open_now", JBool true)]);
            ("rating", JFloat 4.5);
            ("types", JArr [JStr "tourist_attraction"; JStr "point_of_interest"]);
            ("user_ratings_total", JInt 400000)]
           {| PlaceOfInterest.name := "Colosseum";
              PlaceOfInterest.description :=
                "Piazza del Colosseo, 1, 00184 Roma RM, Italy";
              PlaceOfInterest.business_status := Some "OPERATIONAL";
              PlaceOfInterest.opening_hours := Some [("open_now", JBool true)];
              PlaceOfInterest.rating := Some 4.5%float;
              PlaceOfInterest.types :=
                Some ["tourist_attraction"; "point_of_interest"];
              PlaceOfInterest.user_ratings_total := Some 400000%Z |}
           eq_refl).
Defined.

(** ** get_weather_forecast: calls, logs, values *)

Lemma weather_trace `{PyLib} (w : World) (cfg : Config) (city : string) :
  trace (get_weather_forecast w cfg city)
  = Log INFO ("Fetching weather forecast for " ++ city ++ "...")
    :: HttpGet (weather_url cfg city)
    :: match weather_attempt w cfg city with
       | Ok _ => []
       | Err e =>
           if isinstance e [RequestException] then
             [Log ERROR ("Request error: " ++ exn_str e); Log ERROR (format_exc e)]
           else if isinstance e [KeyError; IndexError; ValueError] then
             [Log ERROR ("Parsing error: " ++ exn_str e)]
           else []
       end.
Proof.
  unfold get_weather_forecast, weather_attempt.
  destruct (requests_get w (weather_url cfg city)) as [response | msg]; simpl.
  - destruct (forecasts_of response) as [out | e]; simpl; [reflexivity |].
    destruct (isinstance e [RequestException]); [reflexivity |].
    destruct (isinstance e [KeyError; IndexError; ValueError]); reflexivity.
  - reflexivity.
Qed.

Lemma raise_for_status_ok `{PyLib} (r : Response) :
  (status_code r < 400 \/ 600 <= status_code r)%Z ->
  raise_for_status r = Ok tt.
Proof.
  intros Hst. unfold raise_for_status.
  destruct ((400 <=? status_code r)%Z && (status_code r <? 500)%Z) eqn:H4.
  { apply andb_prop in H4 as [Ha Hb]. lia. }
  destruct ((500 <=? status_code r)%Z && (status_code r <? 600)%Z) eqn:H5.
  { apply andb_prop in H5 as [Ha Hb]. lia. }
  reflexivity.
Qed.

(** X11: get_weather_forecast makes exactly one network call, the GET of
    the forecast URL built from city and key, whatever the answer: it never
    retries and calls nothing else. *)
Theorem weather_network_calls `{PyLib} (w : World) (cfg : Config)
    (city : string) :
  List.filter is_network (trace (get_weather_forecast w cfg city))
  = [HttpGet ("http://api.openweathermap.org/data/2.5/forecast?q=" ++ city
              ++ "&units=metric&appid=" ++ fstr_opt (WEATHER_API_KEY cfg))].
Proof.
  rewrite weather_trace. cbn [List.filter is_network].
  destruct (weather_attempt w cfg city) as [out | e]; [reflexivity |].
  destruct (isinstance e [RequestException]); [reflexivity |].
  destruct (isinstance e [KeyError; IndexError; ValueError]); reflexivity.
Qed.

(** X12: get_weather_forecast writes an ERROR record exactly when it
    swallows a failure into the sentinel.  A call that succeeds writes none,
    and neither does one whose TypeError or AttributeError escapes. *)
Theorem weather_error_logged `{PyLib} (w : World) (cfg : Config)
    (city : string) :
  existsb is_error_log (trace (get_weather_forecast w cfg city))
  = match weather_attempt w cfg city with
    | Ok _ => false
    | Err e =>
        isinstance e [RequestException]
        || isinstance e [KeyError; IndexError; ValueError]
    end /\
  (existsb is_error_log (trace (get_weather_forecast w cfg city)) = true
   <-> exists e, weather_attempt w cfg city = Err e
                 /\ result (get_weather_forecast w cfg city) = Ret [sentinel e]).
Proof.
  rewrite weather_trace, weather_result.
  destruct (weather_attempt w cfg city) as [out | e].
  { split; [reflexivity |]. split; [discriminate |].
    intros (e & He & _). discriminate. }
  destruct (isinstance e [RequestException]).
  { split; [reflexivity |]. split; [eauto | reflexivity]. }
  destruct (isinstance e [KeyError; IndexError; ValueError]).
  { split; [reflexivity |]. split; [eauto | reflexivity]. }
  split; [reflexivity |]. split; [discriminate |].
  intros (e' & He & Hr). discriminate.
Qed.

(** X13: only the first eight entries of the list are looked at.  For a
    response with a good status, an object body, cod "200" and a list (an
    absent list counts as empty), the outcome is that of building the
    records of the first eight entries in order; when all of them can be
    built, the function returns min(8, n) records. *)
Theorem weather_first_eight `{PyLib} (w : World) (cfg : Config) (city : string)
    (r : Response) (kvs : list (string * json)) (l : list json) :
  requests_get w (weather_url cfg city) = inl r ->
  (status_code r < 400 \/ 600 <= status_code r)%Z ->
  resp_body r = inl (JObj kvs) ->
  assoc "cod" kvs = Some (JStr "200") ->
  default (JArr []) (assoc "list" kvs) = JArr l ->
  weather_attempt w cfg city = omapM forecast_entry (take 8 l) /\
  (forall out, omapM forecast_entry (take 8 l) = Ok out ->
     result (get_weather_forecast w cfg city) = Ret out
     /\ length out = Nat.min 8 (length l)).
Proof.
  intros Hget Hst Hbody Hcod Hlist.
  assert (Hatt : weather_attempt w cfg city = omapM forecast_entry (take 8 l)).
  { unfold weather_attempt, forecasts_of, Response_json.
    rewrite Hget, (raise_for_status_ok r Hst), Hbody. cbn [rbind py_get].
    rewrite Hcod. cbn [default from_option id py_ne_str String.eqb Ascii.eqb
                       Bool.eqb negb rbind].
    rewrite Hlist. reflexivity. }
  split; [exact Hatt |]. intros out Hout.
  rewrite weather_result, Hatt, Hout. split; [reflexivity |].
  apply omapM_Ok in Hout.
  rewrite <- (Forall2_length _ _ _ Hout), length_take. reflexivity.
Qed.

Lemma weather_first_eight_witness :
  weather_attempt nine_entries_world cfg_ok "Rome"
  = omapM forecast_entry (take 8 (replicate 9 noon_item)) /\
  (forall out, omapM forecast_entry (take 8 (replicate 9 noon_item)) = Ok out ->
     result (get_weather_forecast nine_entries_world cfg_ok "Rome") = Ret out
     /\ length out = Nat.min 8 (length (replicate 9 noon_item))).
Proof.
  apply (weather_first_eight nine_entries_world cfg_ok "Rome"
           (ok_response (forecast_body (replicate 9 noon_item)))
           [("cod", JStr "200"); ("message", JInt 0); ("cnt", JInt 9);
            ("list", JArr (replicate 9 noon_item))]);
    try reflexivity.
  left. vm_compute. reflexivity.
Defined.

Lemma forecast_entry_documented `{PyLib} (f record : json) :
  entry_record f record -> forecast_entry f = Ok record.
Proof.
  intros (fields & time & weather0 & weathers & description & main & temp
          & -> & Ht & Hw & Hd & Hm & Htemp & ->).
  unfold forecast_entry. cbn [py_getitem]. rewrite Ht. cbn [rbind].
  rewrite Hw. cbn [rbind py_getitem0 py_getitem]. rewrite Hd. cbn [rbind].
  rewrite Hm. cbn [rbind py_getitem]. rewrite Htemp. reflexivity.
Qed.

(** X14: the field mapping.  For a response with a good status, an object
    body and cod "200", when each of the first eight entries has the
    documented shape, the function returns, in order, one record per such
    entry: time is the entry's dt_txt, description that of its first
    weather element, temp its main.temp formatted and followed by the
    unit. *)
Theorem weather_success_records `{PyLib} (w : World) (cfg : Config)
    (city : string) (r : Response) (kvs : list (string * json))
    (l out : list json) :
  requests_get w (weather_url cfg city) = inl r ->
  (status_code r < 400 \/ 600 <= status_code r)%Z ->
  resp_body r = inl (JObj kvs) ->
  assoc "cod" kvs = Some (JStr "200") ->
  default (JArr []) (assoc "list" kvs) = JArr l ->
  Forall2 entry_record (take 8 l) out ->
  get_weather_forecast w cfg city
  = ([Log INFO ("Fetching weather forecast for " ++ city ++ "...");
      HttpGet (weather_url cfg city)], Ret out).
Proof.
  intros Hget Hst Hbody Hcod Hlist Hall.
  assert (Hatt : weather_attempt w cfg city = Ok out).
  { unfold weather_attempt, forecasts_of, Response_json.
    rewrite Hget, (raise_for_status_ok r Hst), Hbody. cbn [rbind py_get].
    rewrite Hcod. cbn [default from_option id py_ne_str String.eqb Ascii.eqb
                       Bool.eqb negb rbind].
    rewrite Hlist. cbn [rbind py_slice8 py_iter]. apply omapM_Ok.
    clear -Hall. induction Hall as [| f rec fs recs Hrec _ IH]; constructor.
    - apply forecast_entry_documented, Hrec.
    - exact IH. }
  pose proof (weather_trace w cfg city) as Ht.
  pose proof (weather_result w cfg city) as Hr.
  rewrite Hatt in Ht, Hr.
  destruct (get_weather_forecast w cfg city) as [t o].
  unfold trace, result in Ht, Hr. simpl in Ht, Hr. subst. reflexivity.
Qed.

Lemma weather_success_records_witness :
  get_weather_forecast nine_entries_world cfg_ok "Rome"
  = ([Log INFO ("Fetching weather forecast for " ++ "Rome" ++ "...");
      HttpGet (weather_url cfg_ok "Rome")], Ret (replicate 8 noon_record)).
Proof.
  apply (weather_success_records nine_entries_world cfg_ok "Rome"
           (ok_response (forecast_body (replicate 9 noon_item)))
           [("cod", JStr "200"); ("message", JInt 0); ("cnt", JInt 9);
            ("list", JArr (replicate 9 noon_item))]
           (replicate 9 noon_item) (replicate 8 noon_record));
    try reflexivity.
  - left. vm_compute. reflexivity.
  - cbn [take replicate firstn].
    repeat constructor;
      (eexists _, _, _, _, _, _, _; repeat split; reflexivity).
Defined.

Lemma omapM_first_Err {A B} (f : A -> res B) (good : list A) (bad : A)
    (rest : list A) (e : exn) :
  Forall (fun x => exists y, f x = Ok y) good ->
  f bad = Err e ->
  omapM f (good ++ bad :: rest) = Err e.
Proof.
  intros Hgood Hbad. induction Hgood as [| x good (y & Hx) _ IH]; simpl.
  - rewrite Hbad. reflexivity.
  - rewrite Hx. simpl. rewrite IH. reflexivity.
Qed.

(** X15: one entry that cannot be turned into a record, among the first
    eight, replaces the whole forecast.  When the entries before it are
    fine and it raises [e], the function returns the single sentinel
    carrying [e] if [e] is a KeyError, IndexError or ValueError (a missing
    key, an empty weather list, a field that is not a string), and lets [e]
    through otherwise; no record of the good entries is returned. *)
Theorem weather_bad_entry `{PyLib} (w : World) (cfg : Config) (city : string)
    (r : Response) (kvs : list (string * json)) (l good rest : list json)
    (bad : json) (e : exn) :
  requests_get w (weather_url cfg city) = inl r ->
  (status_code r < 400 \/ 600 <= status_code r)%Z ->
  resp_body r = inl (JObj kvs) ->
  assoc "cod" kvs = Some (JStr "200") ->
  default (JArr []) (assoc "list" kvs) = JArr l ->
  take 8 l = good ++ bad :: rest ->
  Forall (fun f => exists record, forecast_entry f = Ok record) good ->
  forecast_entry bad = Err e ->
  result (get_weather_forecast w cfg city)
  = if isinstance e [KeyError; IndexError; ValueError]
    then Ret [sentinel e] else Raise e.
Proof.
  intros Hget Hst Hbody Hcod Hlist Htake Hgood Hbad.
  assert (Hatt : weather_attempt w cfg city = Err e).
  { unfold weather_attempt, forecasts_of, Response_json.
    rewrite Hget, (raise_for_status_ok r Hst), Hbody. cbn [rbind py_get].
    rewrite Hcod. cbn [default from_option id py_ne_str String.eqb Ascii.eqb
                       Bool.eqb negb rbind].
    rewrite Hlist. cbn [rbind py_slice8 py_iter]. rewrite Htake.
    apply (omapM_first_Err forecast_entry good bad rest e Hgood Hbad). }
  rewrite weather_result, Hatt.
  assert (Hcls : In (exn_cls e) [KeyError; TypeError; IndexError; ValidationError]).
  { apply (forecast_entry_raises bad e Hbad). }
  destruct e as [c msg]. unfold isinstance. simpl in Hcls |- *.
  destruct c; simpl; try reflexivity; exfalso; intuition congruence.
Qed.

Lemma weather_bad_entry_witness :
  result (get_weather_forecast missing_time_world cfg_ok "Rome")
  = if isinstance (Exn KeyError (py_repr (JStr "dt_txt")))
         [KeyError; IndexError; ValueError]
    then Ret [sentinel (Exn KeyError (py_repr (JStr "dt_txt")))]
    else Raise (Exn KeyError (py_repr (JStr "dt_txt"))).
Proof.
  apply (weather_bad_entry missing_time_world cfg_ok "Rome"
           (ok_response (forecast_body
              [noon_item; JObj [("main", JObj [("temp", JInt 20)])]; noon_item]))
           [("cod", JStr "200"); ("message", JInt 0); ("cnt", JInt 3);
            ("list", JArr [noon_item; JObj [("main", JObj [("temp", JInt 20)])];
                           noon_item])]
           [noon_item; JObj [("main", JObj [("temp", JInt 20)])]; noon_item]
           [noon_item] [noon_item]
           (JObj [("main", JObj [("temp", JInt 20)])]));
    try reflexivity.
  - left. vm_compute. reflexivity.
  - repeat constructor. eexists. reflexivity.
Defined.

(** The missing dt_txt, run: the sentinel names the key. *)
Example weather_missing_time :
  result (get_weather_forecast missing_time_world cfg_ok "Rome")
  = Ret [JObj [("time", JStr "");
               ("description", JStr "Parsing error: 'dt_txt'");
               ("temp", JStr "")]].
Proof. vm_compute. reflexivity. Qed.

(** X16: an HTTP status from 400 to 599 gives the sentinel whatever the
    body holds; its description is "Parsing error: " followed by the
    status, "Client Error" or "Server Error", the reason and the URL, and
    the failure is logged as a request error with its stack trace. *)
Theorem weather_http_error_sentinel `{PyLib} (w : World) (cfg : Config)
    (city : string) (r : Response) :
  requests_get w (weather_url cfg city) = inl r ->
  (400 <= status_code r < 600)%Z ->
  let text : string :=
    (pretty (status_code r)
     ++ (if (status_code r <? 500)%Z then " Client Error: " else " Server Error: ")
     ++ resp_reason r ++ " for url: " ++ resp_url r)%string in
  get_weather_forecast w cfg city
  = ([Log INFO ("Fetching weather forecast for " ++ city ++ "...");
      HttpGet (weather_url cfg city);
      Log ERROR ("Request error: " ++ text);
      Log ERROR (format_exc (Exn HTTPError text))],
     Ret [JObj [("time", JStr "");
                ("description", JStr ("Parsing error: " ++ text));
                ("temp", JStr "")]]).
Proof.
  intros Hget Hst text.
  assert (Hatt : weather_attempt w cfg city = Err (Exn HTTPError text)).
  { unfold weather_attempt, forecasts_of, raise_for_status. rewrite Hget.
    subst text. destruct (status_code r <? 500)%Z eqn:H5.
    - replace (400 <=? status_code r)%Z with true by (symmetry; apply Z.leb_le; lia).
      reflexivity.
    - replace (400 <=? status_code r)%Z with true by (symmetry; apply Z.leb_le; lia).
      replace (500 <=? status_code r)%Z with true
        by (symmetry; apply Z.leb_le; apply Z.ltb_ge in H5; lia).
      replace (status_code r <? 600)%Z with true by (symmetry; apply Z.ltb_lt; lia).
      reflexivity. }
  pose proof (weather_trace w cfg city) as Ht.
  pose proof (weather_result w cfg city) as Hr.
  rewrite Hatt in Ht, Hr.
  destruct (get_weather_forecast w cfg city) as [t o].
  unfold trace, result in Ht, Hr. simpl in Ht, Hr. subst. reflexivity.
Qed.

Lemma weather_http_error_sentinel_witness :
  result (get_weather_forecast (with_weather not_found_response) cfg_ok "Atlantis")
  = Ret [JObj [("time", JStr "");
               ("description",
                JStr "Parsing error: 404 Client Error: Not Found for url: http://api.openweathermap.org/data/2.5/forecast?q=Atlantis");
               ("temp", JStr "")]].
Proof.
  rewrite (weather_http_error_sentinel (with_weather not_found_response) cfg_ok
             "Atlantis" not_found_response eq_refl ltac:(simpl; lia)).
  vm_compute. reflexivity.
Defined.

(** X17: a response with a good status whose body is not JSON gives the
    sentinel carrying the decoder's message; the failure is logged and
    nothing is raised. *)
Theorem weather_undecodable_body `{PyLib} (w : World) (cfg : Config)
    (city : string) (r : Response) (msg : string) :
  requests_get w (weather_url cfg city) = inl r ->
  (status_code r < 400 \/ 600 <= status_code r)%Z ->
  resp_body r = inr msg ->
  result (get_weather_forecast w cfg city)
  = Ret [JObj [("time", JStr "");
               ("description", JStr ("Parsing error: " ++ msg));
               ("temp", JStr "")]] /\
  existsb is_error_log (trace (get_weather_forecast w cfg city)) = true.
Proof.
  intros Hget Hst Hbody.
  assert (Hatt : weather_attempt w cfg city = Err (Exn JSONDecodeError msg)).
  { unfold weather_attempt, forecasts_of, Response_json.
    rewrite Hget, (raise_for_status_ok r Hst), Hbody. reflexivity. }
  rewrite weather_trace, weather_result, Hatt. split; reflexivity.
Qed.

Lemma weather_undecodable_body_witness :
  result (get_weather_forecast (with_weather html_response) cfg_ok "Rome")
  = Ret [JObj [("time", JStr "");
               ("description",
                JStr ("Parsing error: " ++ "Expecting value: line 1 column 1 (char 0)"));
               ("temp", JStr "")]] /\
  existsb is_error_log
    (trace (get_weather_forecast (with_weather html_response) cfg_ok "Rome")) = true.
Proof.
  apply (weather_undecodable_body (with_weather html_response) cfg_ok "Rome"
           html_response "Expecting value: line 1 column 1 (char 0)");
    [reflexivity | simpl; lia | reflexivity].
Defined.

(** X18: the text of an API error.  For a response with a good status and
    an object body whose cod is not the string "200", the sentinel's
    description is "Parsing error: API error: " followed by the body's
    message as [str] formats it, or by "Unknown error" when the body has no
    message; one ERROR record with the same text is written. *)
Theorem weather_api_error_message `{PyLib} (w : World) (cfg : Config)
    (city : string) (r : Response) (kvs : list (string * json)) :
  requests_get w (weather_url cfg city) = inl r ->
  (status_code r < 400 \/ 600 <= status_code r)%Z ->
  resp_body r = inl (JObj kvs) ->
  assoc "cod" kvs <> Some (JStr "200") ->
  let text : string :=
    ("API error: " ++ py_str (default (JStr "Unknown error") (assoc "message" kvs)))%string in
  get_weather_forecast w cfg city
  = ([Log INFO ("Fetching weather forecast for " ++ city ++ "...");
      HttpGet (weather_url cfg city);
      Log ERROR ("Parsing error: " ++ text)],
     Ret [JObj [("time", JStr "");
                ("description", JStr ("Parsing error: " ++ text));
                ("temp", JStr "")]]).
Proof.
  intros Hget Hst Hbody Hcod text.
  assert (Hatt : weather_attempt w cfg city = Err (Exn ValueError text)).
  { unfold weather_attempt, forecasts_of, Response_json.
    rewrite Hget, (raise_for_status_ok r Hst), Hbody. cbn [rbind py_get].
    rewrite (cod_not_200 kvs Hcod). reflexivity. }
  pose proof (weather_trace w cfg city) as Ht.
  pose proof (weather_result w cfg city) as Hr.
  rewrite Hatt in Ht, Hr.
  destruct (get_weather_forecast w cfg city) as [t o].
  unfold trace, result in Ht, Hr. simpl in Ht, Hr. subst. reflexivity.
Qed.

Lemma weather_api_error_message_witness :
  result (get_weather_forecast invalid_key_world cfg_ok "Rome")
  = Ret [JObj [("time", JStr "");
               ("description", JStr "Parsing error: API error: Invalid API key.");
               ("temp", JStr "")]].
Proof.
  rewrite (weather_api_error_message invalid_key_world cfg_ok "Rome"
             (ok_response (JObj [("cod", JInt 401);
                                 ("message", JStr "Invalid API key.")]))
             [("cod", JInt 401); ("message", JStr "Invalid API key.")]
             eq_refl ltac:(simpl; lia) eq_refl ltac:(vm_compute; discriminate)).
  reflexivity.
Defined.

(** X19: a body that is valid JSON but not an object is not handled.  With
    a good status, the call [data.get] raises AttributeError, which neither
    [except] clause catches: the function raises it to its caller and
    writes no ERROR record. *)
Theorem weather_non_object_body_raises `{PyLib} (w : World) (cfg : Config)
    (city : string) (r : Response) (v : json) :
  requests_get w (weather_url cfg city) = inl r ->
  (status_code r < 400 \/ 600 <= status_code r)%Z ->
  resp_body r = inl v ->
  (forall kvs, v <> JObj kvs) ->
  get_weather_forecast w cfg city
  = ([Log INFO ("Fetching weather forecast for " ++ city ++ "...");
      HttpGet (weather_url cfg city)],
     Raise (Exn AttributeError (builtin_msg AttributeError v))).
Proof.
  intros Hget Hst Hbody Hv.
  assert (Hatt : weather_attempt w cfg city
                 = Err (Exn AttributeError (builtin_msg AttributeError v))).
  { unfold weather_attempt, forecasts_of, Response_json.
    rewrite Hget, (raise_for_status_ok r Hst), Hbody. cbn [rbind].
    destruct v; try reflexivity. exfalso. apply (Hv kvs). reflexivity. }
  pose proof (weather_trace w cfg city) as Ht.
  pose proof (weather_result w cfg city) as Hr.
  rewrite Hatt in Ht, Hr.
  destruct (get_weather_forecast w cfg city) as [t o].
  unfold trace, result in Ht, Hr. simpl in Ht, Hr. subst. reflexivity.
Qed.

Lemma weather_non_object_body_raises_witness :
  result (get_weather_forecast array_body_world cfg_ok "Rome")
  = Raise (Exn AttributeError (builtin_msg AttributeError (JArr []))).
Proof.
  rewrite (weather_non_object_body_raises array_body_world cfg_ok "Rome"
             (ok_response (JArr [])) (JArr [])
             eq_refl ltac:(simpl; lia) eq_refl ltac:(discriminate)).
  reflexivity.
Defined.

(** ** What reaches the log *)

Lemma calm_bind {A B} (m : M A) (k : A -> M B) :
  existsb is_error_log (trace m) = false ->
  (forall a, existsb is_error_log (trace (k a)) = false) ->
  existsb is_error_log (trace (bind m k)) = false.
Proof.
  intros Hm Hk. rewrite trace_bind, existsb_app, Hm.
  destruct (result m); [apply Hk | reflexivity | reflexivity].
Qed.

Lemma places_loop_calm `{PyLib} (items : list json) :
  existsb is_error_log (trace (places_loop items)) = false.
Proof.
  induction items as [| place rest IH]; [reflexivity |].
  cbn [places_loop]. apply calm_bind; [rewrite trace_lift; reflexivity |].
  intros p. rewrite trace_emit_bind. cbn [existsb is_error_log orb].
  apply calm_bind; [exact IH |]. intros l. reflexivity.
Qed.

(** X20: find_places_of_interest writes an ERROR record exactly when its
    [try] block raised and the empty list is returned in its place; a call
    that returns the block's list writes none. *)
Theorem places_error_logged `{PyLib} (w : World) (cfg : Config)
    (city : string) (weather interests : option string) :
  truthy (GOOGLE_PLACES_API_KEY cfg) = true ->
  gmaps_Client w (fstr_opt (GOOGLE_PLACES_API_KEY cfg)) = None ->
  existsb is_error_log (trace (find_places_of_interest w cfg city weather interests))
  = match places_attempt w city interests with
    | Ok _ => false
    | Err _ => true
    end.
Proof.
  intros Hkey Hclient. unfold find_places_of_interest, places_attempt.
  rewrite Hkey, !trace_emit_bind, Hclient. cbn [existsb is_error_log orb].
  rewrite trace_try_except, existsb_app, trace_emit_bind, result_emit_bind.
  cbn [existsb is_error_log orb].
  assert (Hh : forall e : exn,
    existsb is_error_log
      (trace (if isinstance e [ApiError]
              then emit (Log ERROR ("Google Places API error: " ++ exn_str e));;
                   ret []
              else emit (Log ERROR ("Unexpected error: " ++ exn_str e));;
                   emit (Log ERROR (format_exc e));; ret (@nil json))) = true).
  { intros e. destruct (isinstance e [ApiError]); reflexivity. }
  rewrite trace_bind, existsb_app, trace_lift, result_bind, result_lift.
  cbn [existsb orb].
  destruct (gmaps_places w (places_query city interests)) as [resp | e];
    cbn [rbind]; [| apply Hh].
  rewrite trace_bind, existsb_app, trace_lift, result_bind, result_lift.
  cbn [existsb orb].
  destruct (py_get resp "results" (JArr [])) as [results | e];
    cbn [rbind]; [| apply Hh].
  rewrite trace_bind, existsb_app, trace_lift, result_bind, result_lift.
  cbn [existsb orb].
  destruct (py_iter results) as [items | e]; cbn [rbind]; [| apply Hh].
  rewrite trace_bind, existsb_app, places_loop_calm, result_bind,
    places_loop_result.
  cbn [orb].
  destruct (omapM make_place items) as [ps | e]; cbn [rbind]; [| apply Hh].
  rewrite trace_emit_bind, result_emit_bind. reflexivity.
Qed.

Lemma places_error_logged_witness :
  existsb is_error_log
    (trace (find_places_of_interest numeric_name_world cfg_ok "Rome" None None))
  = match places_attempt numeric_name_world "Rome" None with
    | Ok _ => false
    | Err _ => true
    end.
Proof.
  apply (places_error_logged numeric_name_world cfg_ok "Rome" None None);
    reflexivity.
Defined.


(** ** get_weather_forecast: what is returned, and when *)












(** The number in place of dt_txt, run: the second entry fails validation
    and the forecast is replaced by the sentinel. *)
Example weather_numeric_time :
  exists d,
    result (get_weather_forecast numeric_time_world cfg_ok "Rome") = Ret [d]
    /\ is_sentinel d.
Proof.
  eexists. split; [vm_compute; reflexivity |]. eexists. reflexivity.
Qed.
